(** * NoteAPP: the five collections of [src/App.tsx] and the import helper
      of [src/components/ui/FileOperations.tsx]

    The React component [NoteApp] keeps five arrays in component state
    (highlights, todos, events, resources, ideapadNotes) and changes them
    only through the CRUD closures [addHighlight] .. [deleteIdeapadNote],
    each of which calls the state setters with a functional updater
    [prev => ...].  The embedding below is shallow:

    - a JavaScript string is its sequence of UTF-16 code units ([list N]);
    - a JavaScript number that the code only subtracts and tests for sign
      ([createdAt], [time], [Date.now()]) is an integer of [Z]; the result of
      [new Date(s).getTime()] is an [option Z], [None] standing for [NaN];
    - the component state is a record [App]; a setter [setX(prev => f prev)]
      is the function [setX f] on that record;
    - [Array.prototype.sort] is a stable sort driven by the sign of the
      comparator ([sort] below);
    - what the code reads from its environment ([Date.now()],
      [Math.random()], [localStorage], the [Date] parser, [JSON.parse], the
      [onImport] prop) is an explicit argument or a [Section] variable.

    The cells [currentView], [selectedItem] and [isLoading] of [NoteApp]
    are left out: no operation below reads them, and only the [finally]
    block of the load effect writes one of them ([isLoading]). *)

From Stdlib Require Import ZArith NArith Lia.
From Stdlib Require Import String Ascii.
From stdpp Require Import base decidable list sorting gmap.

Local Open Scope Z_scope.

(** ** JavaScript strings *)

Abbreviation jsstring := (list N).

(** An ASCII literal as a JavaScript string. *)
Definition js (s : string) : jsstring :=
  (fun a => N_of_ascii a) <$> list_ascii_of_string s.

(** [WhiteSpace] and [LineTerminator] code units of ECMAScript, the ones
    [String.prototype.trim] strips. *)
Definition is_ws (c : N) : bool :=
  ((c =? 9) || (c =? 10) || (c =? 11) || (c =? 12) || (c =? 13) || (c =? 32)
   || (c =? 160) || (c =? 5760) || ((8192 <=? c) && (c <=? 8202))
   || (c =? 8232) || (c =? 8233) || (c =? 8239) || (c =? 8287)
   || (c =? 12288) || (c =? 65279))%N.

Fixpoint trimStart (s : jsstring) : jsstring :=
  match s with
  | [] => []
  | c :: s' => if is_ws c then trimStart s' else s
  end.

Definition trimEnd (s : jsstring) : jsstring :=
  reverse (trimStart (reverse s)).

Definition trim (s : jsstring) : jsstring := trimEnd (trimStart s).

(** Truthiness of a string: every string but the empty one. *)
Definition truthy (s : jsstring) : bool :=
  match s with [] => false | _ :: _ => true end.

(** The empty string and the strings of whitespace only. *)
Definition whitespace_only (s : jsstring) : Prop :=
  Forall (fun c => is_ws c = true) s.

(** [!text.trim()], the guard of the submit handlers. *)
Definition blank (s : jsstring) : bool := negb (truthy (trim s)).

(** [s.substring(0, n)]. *)
Definition substring0 (n : nat) (s : jsstring) : jsstring := take n s.

(** ** JavaScript numbers as far as the comparators need them *)

(** [x - y] where either side may be [NaN]. *)
Definition num_sub (x y : option Z) : option Z :=
  match x, y with
  | Some a, Some b => Some (a - b)
  | _, _ => None
  end.

(** [x || y] on numbers: [0] and [NaN] are falsy. *)
Definition num_or (x : option Z) (y : Z) : Z :=
  match x with
  | Some a => if decide (a = 0) then y else a
  | None => y
  end.

(** [Number(b)] for a boolean. *)
Definition Number_of_bool (b : bool) : Z := if b then 1 else 0.

(** ** [Array.prototype.sort]

    ECMAScript requires the sort to be stable and, for a consistent
    comparator, to order the array by it.  The stable insertion sort below
    is the function this determines: [x] is placed after the elements it
    compares greater than and before the first element [y] with
    [cmp x y <= 0], so equal elements keep their relative order.  For a
    comparator that is not consistent (that of [addEvent] on a date that
    is not read as one) ECMAScript leaves the order to the
    implementation, and the order of [sort] is then one of those an
    engine may give. *)
Section Sort.
Context {A : Type} (cmp : A -> A -> Z).

Fixpoint insert (x : A) (l : list A) : list A :=
  match l with
  | [] => [x]
  | y :: l' => if decide (0 < cmp x y) then y :: insert x l' else x :: l
  end.

Definition sort (l : list A) : list A := foldr insert [] l.
End Sort.

(** ** Data structures (the interfaces of App.tsx) *)

Module Highlight.
Record t := mk
  { id : jsstring; text : jsstring; datetime : jsstring;
    color : jsstring; createdAt : Z }.
End Highlight.

Module Todo.
Record t := mk
  { id : jsstring; text : jsstring; completed : bool;
    color : jsstring; createdAt : Z }.
End Todo.

Module CalendarEvent.
Record t := mk
  { id : jsstring; title : jsstring; date : jsstring; time : Z;
    color : jsstring;
    relatedHighlightId : option jsstring;
    relatedResourceId : option jsstring;
    createdAt : Z }.
End CalendarEvent.

Inductive ResourceType := link | note.

Module Resource.
Record t := mk
  { id : jsstring; name : jsstring; type : ResourceType;
    content : jsstring; color : jsstring; createdAt : Z }.
End Resource.

Module IdeapadNote.
Record t := mk
  { id : jsstring; text : jsstring; color : jsstring; createdAt : Z }.
End IdeapadNote.

#[global] Instance ResourceType_eq_dec : EqDecision ResourceType.
Proof. solve_decision. Defined.
#[global] Instance Highlight_eq_dec : EqDecision Highlight.t.
Proof. solve_decision. Defined.
#[global] Instance Todo_eq_dec : EqDecision Todo.t.
Proof. solve_decision. Defined.
#[global] Instance CalendarEvent_eq_dec : EqDecision CalendarEvent.t.
Proof. solve_decision. Defined.
#[global] Instance Resource_eq_dec : EqDecision Resource.t.
Proof. solve_decision. Defined.
#[global] Instance IdeapadNote_eq_dec : EqDecision IdeapadNote.t.
Proof. solve_decision. Defined.

(** The five [useState] arrays of [NoteApp]. *)
Record App := mkApp
  { highlights : list Highlight.t;
    todos : list Todo.t;
    events : list CalendarEvent.t;
    resources : list Resource.t;
    ideapadNotes : list IdeapadNote.t }.

#[global] Instance App_eq_dec : EqDecision App.
Proof. solve_decision. Defined.

(** The initial state: every [useState([])]. *)
Definition initial : App := mkApp [] [] [] [] [].

(** The setters, called with a functional updater. *)
Definition setHighlights (f : list Highlight.t -> list Highlight.t) (s : App) : App :=
  mkApp (f (highlights s)) (todos s) (events s) (resources s) (ideapadNotes s).
Definition setTodos (f : list Todo.t -> list Todo.t) (s : App) : App :=
  mkApp (highlights s) (f (todos s)) (events s) (resources s) (ideapadNotes s).
Definition setEvents (f : list CalendarEvent.t -> list CalendarEvent.t) (s : App) : App :=
  mkApp (highlights s) (todos s) (f (events s)) (resources s) (ideapadNotes s).
Definition setResources (f : list Resource.t -> list Resource.t) (s : App) : App :=
  mkApp (highlights s) (todos s) (events s) (f (resources s)) (ideapadNotes s).
Definition setIdeapadNotes (f : list IdeapadNote.t -> list IdeapadNote.t) (s : App) : App :=
  mkApp (highlights s) (todos s) (events s) (resources s) (f (ideapadNotes s)).

(** What one call of an [add] closure reads from its environment:
    the string [generateId()] returns (built from [Date.now()] and
    [Math.random()]) and the value of the later [Date.now()] stored in
    [createdAt]. *)
Record Env := mkEnv
  { generateId : jsstring;          (* generateId() *)
    Date_now : Z;                   (* Date.now() *)
    Date_new_valueOf : Z;           (* new Date().valueOf() *)
    Date_new_toISOString : jsstring (* new Date().toISOString() *) }.

(** ** The comparators passed to [sort] *)

(** [(a, b) => b.createdAt - a.createdAt] *)
Definition cmpHighlight (a b : Highlight.t) : Z :=
  Highlight.createdAt b - Highlight.createdAt a.
Definition cmpResource (a b : Resource.t) : Z :=
  Resource.createdAt b - Resource.createdAt a.
Definition cmpIdeapadNote (a b : IdeapadNote.t) : Z :=
  IdeapadNote.createdAt b - IdeapadNote.createdAt a.

(** [(a, b) => Number(a.completed) - Number(b.completed)
               || b.createdAt - a.createdAt] *)
Definition cmpTodo (a b : Todo.t) : Z :=
  num_or (Some (Number_of_bool (Todo.completed a) - Number_of_bool (Todo.completed b)))
         (Todo.createdAt b - Todo.createdAt a).

Section NoteApp.
(** [new Date(s).getTime()]: the time value of the parsed string, [None]
    for [NaN] (the string is not a date the engine accepts).  Parsing
    is the engine's, so it is a parameter of the development. *)
Variable Date_getTime : jsstring -> option Z.

(** [new Date(s).toISOString()], [None] when it throws [RangeError]. *)
Variable Date_toISOString : jsstring -> option jsstring.

(** [(a, b) => new Date(a.date).getTime() - new Date(b.date).getTime()
               || b.createdAt - a.createdAt] *)
Definition cmpEvent (a b : CalendarEvent.t) : Z :=
  num_or (num_sub (Date_getTime (CalendarEvent.date a))
                  (Date_getTime (CalendarEvent.date b)))
         (CalendarEvent.createdAt b - CalendarEvent.createdAt a).

(** *** CRUD operations *)

(* Highlights *)
Definition addHighlight (env : Env) (text datetime color : jsstring) (s : App) : App :=
  let newHighlight :=
    Highlight.mk (generateId env) text datetime color (Date_now env) in
  setHighlights (fun prev => sort cmpHighlight (prev ++ [newHighlight])) s.

Definition deleteHighlight (id : jsstring) (s : App) : App :=
  let s1 := setHighlights (fun prev => filter (fun h => Highlight.id h <> id) prev) s in
  (* Also remove related events if any *)
  setEvents (fun prev =>
    filter (fun e => CalendarEvent.relatedHighlightId e <> Some id) prev) s1.

(* Todos *)
Definition addTodo (env : Env) (text color : jsstring) (s : App) : App :=
  let newTodo := Todo.mk (generateId env) text false color (Date_now env) in
  setTodos (fun prev => sort cmpTodo (prev ++ [newTodo])) s.

(** [t.id === id ? {...t, completed: !t.completed} : t] *)
Definition toggled (id : jsstring) (t : Todo.t) : Todo.t :=
  if decide (Todo.id t = id)
  then Todo.mk (Todo.id t) (Todo.text t) (negb (Todo.completed t))
               (Todo.color t) (Todo.createdAt t)
  else t.

Definition toggleTodo (id : jsstring) (s : App) : App :=
  setTodos (fun prev => sort cmpTodo (toggled id <$> prev)) s.

Definition deleteTodo (id : jsstring) (s : App) : App :=
  setTodos (fun prev => filter (fun t => Todo.id t <> id) prev) s.

(* Events.  The default of [time], [new Date().valueOf()], is what the
   one caller passes; here the argument is always given. *)
Definition addEvent (env : Env) (title date color : jsstring) (time : Z)
    (relatedHighlightId relatedResourceId : option jsstring) (s : App) : App :=
  let newEvent :=
    CalendarEvent.mk (generateId env) title date time color
                     relatedHighlightId relatedResourceId (Date_now env) in
  setEvents (fun prev => sort cmpEvent (prev ++ [newEvent])) s.

Definition deleteEvent (id : jsstring) (s : App) : App :=
  setEvents (fun prev => filter (fun e => CalendarEvent.id e <> id) prev) s.

(* Resources *)
Definition addResource (env : Env) (name : jsstring) (type : ResourceType)
    (content color : jsstring) (s : App) : App :=
  let newResource :=
    Resource.mk (generateId env) name type content color (Date_now env) in
  setResources (fun prev => sort cmpResource (prev ++ [newResource])) s.

Definition deleteResource (id : jsstring) (s : App) : App :=
  let s1 := setResources (fun prev => filter (fun r => Resource.id r <> id) prev) s in
  (* Also remove related events if any *)
  setEvents (fun prev =>
    filter (fun e => CalendarEvent.relatedResourceId e <> Some id) prev) s1.

(* Ideapad Notes *)
Definition addIdeapadNote (env : Env) (text color : jsstring) (s : App) : App :=
  let newNote := IdeapadNote.mk (generateId env) text color (Date_now env) in
  setIdeapadNotes (fun prev => sort cmpIdeapadNote (prev ++ [newNote])) s.

Definition deleteIdeapadNote (id : jsstring) (s : App) : App :=
  setIdeapadNotes (fun prev => filter (fun n => IdeapadNote.id n <> id) prev) s.

(** *** The operations as data, for sequences of calls *)

Inductive Op :=
| AddHighlight (text datetime color : jsstring)
| DeleteHighlight (id : jsstring)
| AddTodo (text color : jsstring)
| ToggleTodo (id : jsstring)
| DeleteTodo (id : jsstring)
| AddEvent (title date color : jsstring) (time : Z)
           (relatedHighlightId relatedResourceId : option jsstring)
| DeleteEvent (id : jsstring)
| AddResource (name : jsstring) (type : ResourceType) (content color : jsstring)
| DeleteResource (id : jsstring)
| AddIdeapadNote (text color : jsstring)
| DeleteIdeapadNote (id : jsstring).

Definition step (env : Env) (o : Op) (s : App) : App :=
  match o with
  | AddHighlight text datetime color => addHighlight env text datetime color s
  | DeleteHighlight id => deleteHighlight id s
  | AddTodo text color => addTodo env text color s
  | ToggleTodo id => toggleTodo id s
  | DeleteTodo id => deleteTodo id s
  | AddEvent title date color time rh rr => addEvent env title date color time rh rr s
  | DeleteEvent id => deleteEvent id s
  | AddResource name type content color => addResource env name type content color s
  | DeleteResource id => deleteResource id s
  | AddIdeapadNote text color => addIdeapadNote env text color s
  | DeleteIdeapadNote id => deleteIdeapadNote id s
  end.

(** A finite sequence of calls, each with what it read from the
    environment, applied from the left. *)
Definition run (calls : list (Env * Op)) (s : App) : App :=
  foldl (fun s c => step c.1 c.2 s) s calls.

(** *** The submit handlers of the views

    Each view keeps its form fields in local [useState] cells; a handler
    reads them, may call one [add] closure and resets some fields.  A
    handler is a function from the form and the application state to
    the new form and the new application state. *)

Inductive ItemType :=
  highlight | todo | event | resource | ideapadNote.

(* Dashboard: handleQuickWriteSubmit *)
Record QuickWrite := mkQuickWrite
  { quickWriteText : jsstring;
    quickWriteTarget : ItemType;
    quickWriteColor : jsstring }.

Definition handleQuickWriteSubmit (env : Env) (f : QuickWrite) (s : App)
    : QuickWrite * App :=
  if blank (quickWriteText f) then (f, s)
  else
    let s' :=
      match quickWriteTarget f with
      | highlight =>
          addHighlight env (quickWriteText f) (Date_new_toISOString env)
                       (quickWriteColor f) s
      | todo => addTodo env (quickWriteText f) (quickWriteColor f) s
      | ideapadNote => addIdeapadNote env (quickWriteText f) (quickWriteColor f) s
      | resource =>
          addResource env (substring0 30 (quickWriteText f)) note
                      (quickWriteText f) (quickWriteColor f) s
      | event => s (* default: console.warn only *)
      end in
    (mkQuickWrite [] (quickWriteTarget f) (quickWriteColor f), s').

(** [formatDateForInput]: the first 16 code units of the ISO string, of
    the current time when the argument is not a date. *)
Definition formatDateForInput (env : Env) (dateString : jsstring) : jsstring :=
  match Date_toISOString dateString with
  | Some iso => take 16 iso
  | None => take 16 (Date_new_toISOString env)
  end.

(* HighlightSection: handleAddHighlight *)
Record HighlightForm := mkHighlightForm
  { newHighlightText : jsstring;
    newHighlightDate : jsstring;
    newHighlightColor : jsstring }.

Definition handleAddHighlight (env : Env) (f : HighlightForm) (s : App)
    : HighlightForm * App :=
  if blank (newHighlightText f) then (f, s)
  else
    match Date_toISOString (newHighlightDate f) with
    | None => (f, s) (* RangeError leaves the handler *)
    | Some datetime =>
        (mkHighlightForm [] (formatDateForInput env (Date_new_toISOString env))
                         (newHighlightColor f),
         addHighlight env (newHighlightText f) datetime (newHighlightColor f) s)
    end.

(* TodoSection: handleAddTodo *)
Record TodoForm := mkTodoForm
  { newTodoText : jsstring; newTodoColor : jsstring }.

Definition handleAddTodo (env : Env) (f : TodoForm) (s : App) : TodoForm * App :=
  if blank (newTodoText f) then (f, s)
  else (mkTodoForm [] (newTodoColor f),
        addTodo env (newTodoText f) (newTodoColor f) s).

(* CalendarSection: handleAddEvent *)
Record EventForm := mkEventForm
  { selectedDate : option jsstring;
    newEventTime : jsstring;
    newEventTitle : jsstring;
    newEventColor : jsstring;
    linkedHighlightId : option jsstring;
    linkedResourceId : option jsstring }.

Definition handleAddEvent (env : Env) (f : EventForm) (s : App) : EventForm * App :=
  if blank (newEventTitle f) then (f, s)
  else
    match selectedDate f with
    | None => (f, s)
    | Some d =>
        if truthy d then
          (mkEventForm (selectedDate f) (newEventTime f) [] (newEventColor f)
                       None None,
           addEvent env (newEventTitle f) d (newEventColor f)
                    (Date_new_valueOf env)
                    (linkedHighlightId f) (linkedResourceId f) s)
        else (f, s)
    end.

(* IdeapadSection: handleAddNote *)
Record NoteForm := mkNoteForm
  { newNoteText : jsstring; newNoteColor : jsstring }.

Definition handleAddNote (env : Env) (f : NoteForm) (s : App) : NoteForm * App :=
  if blank (newNoteText f) then (f, s)
  else (mkNoteForm [] (newNoteColor f),
        addIdeapadNote env (newNoteText f) (newNoteColor f) s).

(* ResourcesSection: handleAddResource *)
Record ResourceForm := mkResourceForm
  { newResourceName : jsstring;
    newResourceType : ResourceType;
    newResourceContent : jsstring;
    newResourceColor : jsstring }.

Definition handleAddResource (env : Env) (f : ResourceForm) (s : App)
    : ResourceForm * App :=
  if blank (newResourceName f) || blank (newResourceContent f) then (f, s)
  else (mkResourceForm [] (newResourceType f) [] (newResourceColor f),
        addResource env (newResourceName f) (newResourceType f)
                    (newResourceContent f) (newResourceColor f) s).

End NoteApp.

(** ** Persistence: the load effect of [NoteApp] *)

(** What [localStorage.getItem(key)] does: it throws (storage cannot be
    read), returns [null], or returns the stored string. *)
Inductive Read :=
| Unreadable
| Null
| Item (document : jsstring).

Abbreviation Storage := (jsstring -> Read).

Definition key_highlights : jsstring := js "appData_highlights".
Definition key_todos : jsstring := js "appData_todos".
Definition key_events : jsstring := js "appData_events".
Definition key_resources : jsstring := js "appData_resources".
Definition key_ideapadNotes : jsstring := js "appData_ideapadNotes".

Section Load.
(** [JSON.parse] at the type of each collection; [None] when it throws
    [SyntaxError].  The result is handed to the setter as it is (the
    code does no validation), so each parser returns the array the
    setter receives. *)
Variable parseHighlights : jsstring -> option (list Highlight.t).
Variable parseTodos : jsstring -> option (list Todo.t).
Variable parseEvents : jsstring -> option (list CalendarEvent.t).
Variable parseResources : jsstring -> option (list Resource.t).
Variable parseIdeapadNotes : jsstring -> option (list IdeapadNote.t).

(** The [try] block runs in the exception monad [option]: [None] is a
    thrown exception. *)
Definition getItem (ls : Storage) (key : jsstring) : option (option jsstring) :=
  match ls key with
  | Unreadable => None
  | Null => Some None
  | Item d => Some (Some d)
  end.

(** [if (saved) setX(JSON.parse(saved))] *)
Definition hydrate {A : Type} (parse : jsstring -> option (list A))
    (setX : (list A -> list A) -> App -> App)
    (saved : option jsstring) (s : App) : option App :=
  match saved with
  | None => Some s
  | Some d =>
      if truthy d then v ← parse d; Some (setX (fun _ => v) s) else Some s
  end.

Definition load_try (ls : Storage) (s : App) : option App :=
  savedHighlights ← getItem ls key_highlights;
  savedTodos ← getItem ls key_todos;
  savedEvents ← getItem ls key_events;
  savedResources ← getItem ls key_resources;
  savedIdeapadNotes ← getItem ls key_ideapadNotes;
  s1 ← hydrate parseHighlights setHighlights savedHighlights s;
  s2 ← hydrate parseTodos setTodos savedTodos s1;
  s3 ← hydrate parseEvents setEvents savedEvents s2;
  s4 ← hydrate parseResources setResources savedResources s3;
  hydrate parseIdeapadNotes setIdeapadNotes savedIdeapadNotes s4.

(** The [catch] block: initialize with empty arrays if loading fails. *)
Definition load_catch (s : App) : App :=
  setIdeapadNotes (fun _ => [])
    (setResources (fun _ => [])
      (setEvents (fun _ => [])
        (setTodos (fun _ => [])
          (setHighlights (fun _ => []) s)))).

Definition load (ls : Storage) (s : App) : App :=
  match load_try ls s with
  | Some s' => s'
  | None => load_catch s
  end.

(** What one document contributes when nothing throws. *)
Definition hydrated {A : Type} (parse : jsstring -> option (list A))
    (r : Read) (old : list A) : list A :=
  match r with
  | Item d => if truthy d then default old (parse d) else old
  | _ => old
  end.

(** A document makes the [try] block throw: it cannot be read, or it is
    a non-empty string that [JSON.parse] rejects. *)
Definition throws {A : Type} (parse : jsstring -> option (list A)) (r : Read) : bool :=
  match r with
  | Unreadable => true
  | Null => false
  | Item d => truthy d && match parse d with Some _ => false | None => true end
  end.

Definition load_throws (ls : Storage) : bool :=
  throws parseHighlights (ls key_highlights)
  || throws parseTodos (ls key_todos)
  || throws parseEvents (ls key_events)
  || throws parseResources (ls key_resources)
  || throws parseIdeapadNotes (ls key_ideapadNotes).
End Load.

(** ** Import: [handleImport] of FileOperations.tsx *)

(** How a call of a callback ends; either way it may have changed the
    state it closes over. *)
Inductive Completion (S : Type) :=
| Returns (s : S)
| Throws (s : S).
Arguments Returns {S} s.
Arguments Throws {S} s.

(** What the [FileReader] delivers: [onload] with [e.target.result] (a
    string for [readAsText]; [None] stands for any other value) or
    [onerror]. *)
Inductive FileRead :=
| Loaded (result : option jsstring)
| Failed.

(** '匯入資料格式不正確，請確保是有效的 JSON 檔案' *)
Definition msg_bad_format : jsstring :=
  [21295; 20837; 36039; 26009; 26684; 24335; 19981; 27491; 30906; 65292;
   35531; 30906; 20445; 26159; 26377; 25928; 30340; 32; 74; 83; 79; 78; 32;
   27284; 26696]%N.

(** '讀取檔案時發生錯誤' *)
Definition msg_read_error : jsstring :=
  [35712; 21462; 27284; 26696; 26178; 30332; 29983; 37679; 35492]%N.

Section FileOperations.
(** The parsed document ([FileData], an untyped object). *)
Variable FileData : Type.
(** [JSON.parse]; [None] when it throws. *)
Variable JSON_parse : jsstring -> option FileData.
(** The [onImport] prop: the owner's callback, which acts on the
    owner's collections. *)
Variable onImport : FileData -> App -> Completion App.

(** The component's [error] cell, the owner's collections, and the
    documents [onImport] has been called with (most recent first). *)
Record Import := mkImport
  { error : option jsstring;
    app : App;
    imported : list FileData }.

Definition handleImport (file : FileRead) (c : Import) : Import :=
  match file with
  | Failed => mkImport (Some msg_read_error) (app c) (imported c)
  | Loaded None => c
  | Loaded (Some text) =>
      match JSON_parse text with
      | None => mkImport (Some msg_bad_format) (app c) (imported c)
      | Some importedData =>
          match onImport importedData (app c) with
          | Returns s' => mkImport None s' (importedData :: imported c)
          | Throws s' =>
              mkImport (Some msg_bad_format) s' (importedData :: imported c)
          end
      end
  end.
End FileOperations.
Arguments mkImport {FileData} error app imported.
Arguments error {FileData} i.
Arguments app {FileData} i.
Arguments imported {FileData} i.
Arguments handleImport {FileData} JSON_parse onImport file c.

(** ** A date parser to run the development on

    The part of [Date] parsing that ECMAScript fixes: the date-only form
    [YYYY-MM-DD], read as midnight UTC, in milliseconds since the epoch.
    Every other string is rejected here; the theorems below hold for any
    parser and use this one only to evaluate examples. *)
Definition digit (c : N) : option Z :=
  if ((48 <=? c) && (c <=? 57))%N then Some (Z.of_N c - 48) else None.

Definition is_leap (y : Z) : bool :=
  ((y mod 4 =? 0) && negb (y mod 100 =? 0)) || (y mod 400 =? 0).

Definition days_in_month (y m : Z) : Z :=
  if m =? 2 then (if is_leap y then 29 else 28)
  else if (m =? 4) || (m =? 6) || (m =? 9) || (m =? 11) then 30 else 31.

(** Days from 1970-01-01 to the civil date [y]-[m]-[d]. *)
Definition days_from_civil (y m d : Z) : Z :=
  let y' := if m <=? 2 then y - 1 else y in
  let era := y' / 400 in
  let yoe := y' - era * 400 in
  let mp := if 2 <? m then m - 3 else m + 9 in
  let doy := (153 * mp + 2) / 5 + d - 1 in
  let doe := yoe * 365 + yoe / 4 - yoe / 100 + doy in
  era * 146097 + doe - 719468.

Definition iso_getTime (s : jsstring) : option Z :=
  match s with
  | [y1; y2; y3; y4; 45; m1; m2; 45; d1; d2]%N =>
      a ← digit y1; b ← digit y2; c ← digit y3; d ← digit y4;
      e ← digit m1; f ← digit m2; g ← digit d1; h ← digit d2;
      let y := 1000 * a + 100 * b + 10 * c + d in
      let m := 10 * e + f in
      let dd := 10 * g + h in
      if (1 <=? m) && (m <=? 12) && (1 <=? dd) && (dd <=? days_in_month y m)
      then Some (days_from_civil y m dd * 86400000) else None
  | _ => None
  end.

(** ** The display orders of the collections *)

(** Newest first: descending [createdAt]. *)
Definition highlight_before (a b : Highlight.t) : Prop :=
  Highlight.createdAt b <= Highlight.createdAt a.
Definition resource_before (a b : Resource.t) : Prop :=
  Resource.createdAt b <= Resource.createdAt a.
Definition note_before (a b : IdeapadNote.t) : Prop :=
  IdeapadNote.createdAt b <= IdeapadNote.createdAt a.

(** Incomplete before complete; within a group, descending [createdAt]. *)
Definition todo_before (a b : Todo.t) : Prop :=
  (Todo.completed a = false /\ Todo.completed b = true)
  \/ (Todo.completed a = Todo.completed b
      /\ Todo.createdAt b <= Todo.createdAt a).

Section Orders.
Variable Date_getTime : jsstring -> option Z.

(** The event's [date] is one the engine reads as a date. *)
Definition valid_date (e : CalendarEvent.t) : Prop :=
  is_Some (Date_getTime (CalendarEvent.date e)).

(** Ascending date; on the same date, descending [createdAt]. *)
Definition event_before (a b : CalendarEvent.t) : Prop :=
  match Date_getTime (CalendarEvent.date a), Date_getTime (CalendarEvent.date b) with
  | Some x, Some y =>
      x < y \/ (x = y /\ CalendarEvent.createdAt b <= CalendarEvent.createdAt a)
  | _, _ => False
  end.

Definition dates_valid (s : App) : Prop := Forall valid_date (events s).

(** A call whose [date] argument, if it has one, is a date. *)
Definition op_valid (o : Op) : Prop :=
  match o with
  | AddEvent _ date _ _ _ _ => is_Some (Date_getTime date)
  | _ => True
  end.
End Orders.

(** ** The collections an operation writes *)

Inductive Collection :=
  Highlights | Todos | Events | Resources | IdeapadNotes.

Definition writes (o : Op) (c : Collection) : bool :=
  match o, c with
  | AddHighlight _ _ _, Highlights => true
  | DeleteHighlight _, (Highlights | Events) => true
  | (AddTodo _ _ | ToggleTodo _ | DeleteTodo _), Todos => true
  | (AddEvent _ _ _ _ _ _ | DeleteEvent _), Events => true
  | AddResource _ _ _ _, Resources => true
  | DeleteResource _, (Resources | Events) => true
  | (AddIdeapadNote _ _ | DeleteIdeapadNote _), IdeapadNotes => true
  | _, _ => false
  end.

(** Two states hold the same array in collection [c]. *)
Definition same_on (c : Collection) (s s' : App) : Prop :=
  match c with
  | Highlights => highlights s' = highlights s
  | Todos => todos s' = todos s
  | Events => events s' = events s
  | Resources => resources s' = resources s
  | IdeapadNotes => ideapadNotes s' = ideapadNotes s
  end.

(** ** Concrete inputs for the examples *)

(** A JSON text written with ['] for the quotation mark. *)
Definition json (s : string) : jsstring :=
  (fun c => if (c =? 39)%N then 34%N else c) <$> js s.

(** A stand-in for [JSON.parse] that reads the one text [doc] as [v] and
    rejects every other text.  It is only ever run on [doc] and on texts
    that are not JSON. *)
Definition parse_only {A : Type} (doc : jsstring) (v : A) (d : jsstring) : option A :=
  if decide (d = doc) then Some v else None.

Definition env_1 : Env := mkEnv (js "lx1a0k") 1000 1000 (js "2024-05-01T08:00:00.000Z").
Definition env_2 : Env := mkEnv (js "lx1b7q") 2000 2000 (js "2024-05-01T08:00:01.000Z").
Definition env_3 : Env := mkEnv (js "lx1c3z") 3000 3000 (js "2024-05-01T08:00:02.000Z").
Definition env_4 : Env := mkEnv (js "lx1d9m") 4000 4000 (js "2024-05-01T08:00:03.000Z").
Definition env_5 : Env := mkEnv (js "lx1e2c") 5000 5000 (js "2024-05-01T08:00:04.000Z").

(** An event that refers to a highlight id nothing carries, added to the
    empty state. *)
Definition app_dangling : App :=
  addEvent iso_getTime env_1 (js "Meeting") (js "2024-05-01") (js "bg-blue-200")
           1000 (Some (js "h1")) None initial.

(** One todo and one highlight. *)
Definition app_small : App :=
  addHighlight env_2 (js "read") (js "2024-05-01T08:00:00.000Z") (js "bg-red-200")
    (addTodo env_1 (js "buy milk") (js "bg-yellow-200") initial).

Definition calls_example : list (Env * Op) :=
  [ (env_1, AddHighlight (js "read") (js "2024-05-01T08:00:00.000Z") (js "bg-red-200"));
    (env_2, AddTodo (js "buy milk") (js "bg-yellow-200"));
    (env_3, AddEvent (js "Meeting") (js "2024-05-01") (js "bg-blue-200") 3000
                     (Some (js "lx1a0k")) None);
    (env_4, AddEvent (js "Call") (js "2024-04-30") (js "bg-blue-200") 4000 None None);
    (env_5, AddTodo (js "write") (js "bg-yellow-200"));
    (env_5, ToggleTodo (js "lx1b7q"));
    (env_5, DeleteHighlight (js "lx1a0k")) ].

(** Three [addEvent] calls on the empty state; the date of the second
    is not one the parser reads. *)
Definition calls_unreadable_date : list (Env * Op) :=
  [ (env_1, AddEvent (js "Call") (js "2024-04-30") (js "bg-blue-200") 1000 None None);
    (env_2, AddEvent (js "Meeting") (js "someday") (js "bg-blue-200") 2000 None None);
    (env_3, AddEvent (js "Review") (js "2024-05-01") (js "bg-blue-200") 3000 None None) ].

(** The three events these calls store. *)
Definition event_call : CalendarEvent.t :=
  CalendarEvent.mk (js "lx1a0k") (js "Call") (js "2024-04-30") 1000
                   (js "bg-blue-200") None None 1000.
Definition event_someday : CalendarEvent.t :=
  CalendarEvent.mk (js "lx1b7q") (js "Meeting") (js "someday") 2000
                   (js "bg-blue-200") None None 2000.
Definition event_review : CalendarEvent.t :=
  CalendarEvent.mk (js "lx1c3z") (js "Review") (js "2024-05-01") 3000
                   (js "bg-blue-200") None None 3000.

(** Thirty spaces and a letter: not blank, with a blank first thirty. *)
Definition text_indented : jsstring := replicate 30 32%N ++ js "x".

Definition highlight_1 : Highlight.t :=
  Highlight.mk (js "h1") (js "read") (js "2024-05-01T08:00:00.000Z")
               (js "bg-red-200") 1000.

Definition doc_highlights : jsstring :=
  json "[{'id':'h1','text':'read','datetime':'2024-05-01T08:00:00.000Z','color':'bg-red-200','createdAt':1000}]".

(** The stand-ins for [JSON.parse] at the five collections: the
    highlights parser reads [doc_highlights], the others read [[]]. *)
Definition parse_highlights_1 : jsstring -> option (list Highlight.t) :=
  parse_only doc_highlights [highlight_1].
Definition parse_empty {A : Type} : jsstring -> option (list A) :=
  parse_only (js "[]") [].

(** The highlights document is fine; the todos document is cut short. *)
Definition storage_bad_todos : Storage :=
  fun key =>
    if decide (key = key_highlights) then Item doc_highlights
    else if decide (key = key_todos) then Item (js "[{")
    else Null.

(** Only the highlights document is there. *)
Definition storage_highlights_only : Storage :=
  fun key => if decide (key = key_highlights) then Item doc_highlights else Null.

Definition todo_1 : Todo.t :=
  Todo.mk (js "t1") (js "buy milk") false (js "bg-yellow-200") 1000.

Definition doc_todos : jsstring :=
  json "{'todos':[{'id':'t1','text':'buy milk','completed':false,'color':'bg-yellow-200','createdAt':1000}]}".

(** An [onImport] that replaces the todos by those of the document. *)
Definition import_todos (d : list Todo.t) (s : App) : Completion App :=
  Returns (setTodos (fun _ => d) s).

(** An [onImport] that throws before it changes anything. *)
Definition import_throws (d : unit) (s : App) : Completion App := Throws s.

(** ** Persistence: [saveData] *)

(** The collections together with the [isLoading] cell, which the load
    effect clears in its [finally] block and [saveData] reads. *)
Record NoteAppState := mkNoteAppState
  { collections : App; isLoading : bool }.


Section Persist.
Variable parseHighlights : jsstring -> option (list Highlight.t).
Variable parseTodos : jsstring -> option (list Todo.t).
Variable parseEvents : jsstring -> option (list CalendarEvent.t).
Variable parseResources : jsstring -> option (list Resource.t).
Variable parseIdeapadNotes : jsstring -> option (list IdeapadNote.t).

(** [JSON.stringify] at the type of each collection. *)
Variable stringifyHighlights : list Highlight.t -> jsstring.
Variable stringifyTodos : list Todo.t -> jsstring.
Variable stringifyEvents : list CalendarEvent.t -> jsstring.
Variable stringifyResources : list Resource.t -> jsstring.
Variable stringifyIdeapadNotes : list IdeapadNote.t -> jsstring.

(** Whether [localStorage.setItem(key, value)] succeeds on the store; it
    throws otherwise (quota exceeded, storage not available). *)
Variable accepts : Storage -> jsstring -> jsstring -> bool.

(** The load effect on the whole state: [try], [catch], and
    [finally { setIsLoading(false) }]. *)
Definition loadEffect (ls : Storage) (st : NoteAppState) : NoteAppState :=
  mkNoteAppState
    (load parseHighlights parseTodos parseEvents parseResources
          parseIdeapadNotes ls (collections st))
    false.

Definition setItem (ls : Storage) (key value : jsstring) : option Storage :=
  if accepts ls key value
  then Some (fun k => if decide (k = key) then Item value else ls k)
  else None.

(** The [setItem] calls of a [try] block, in order; a throw leaves the
    block, and the [catch] only logs, so the writes done stay. *)
Fixpoint setItems (writes : list (jsstring * jsstring)) (ls : Storage) : Storage :=
  match writes with
  | [] => ls
  | (key, value) :: writes' =>
      match setItem ls key value with
      | Some ls' => setItems writes' ls'
      | None => ls
      end
  end.

Definition saveData (st : NoteAppState) (ls : Storage) : Storage :=
  if isLoading st then ls (* Don't save while initially loading *)
  else
    setItems
      [ (key_highlights, stringifyHighlights (highlights (collections st)));
        (key_todos, stringifyTodos (todos (collections st)));
        (key_events, stringifyEvents (events (collections st)));
        (key_resources, stringifyResources (resources (collections st)));
        (key_ideapadNotes, stringifyIdeapadNotes (ideapadNotes (collections st))) ]
      ls.
End Persist.

(** ** Import: the file input and the drop zone *)

Section FileInput.
Variable FileData : Type.
Variable JSON_parse : jsstring -> option FileData.
Variable onImport : FileData -> App -> Completion App.

(** [handleFileChange]: the first selected file, if any, is imported. *)
Definition handleFileChange (files : list FileRead) (c : Import FileData)
    : Import FileData :=
  match files with
  | file :: _ => handleImport JSON_parse onImport file c
  | [] => c
  end.

(** [handleDragOver], [handleDragLeave], [handleDrop] on the [dropActive]
    cell and the import state. *)
Definition handleDragOver (d : bool * Import FileData) : bool * Import FileData :=
  (true, d.2).
Definition handleDragLeave (d : bool * Import FileData) : bool * Import FileData :=
  (false, d.2).
Definition handleDrop (files : list FileRead) (d : bool * Import FileData)
    : bool * Import FileData :=
  (false,
   match files with
   | file :: _ => handleImport JSON_parse onImport file d.2
   | [] => d.2
   end).

(** Several files imported one after the other. *)
Definition importAll (files : list FileRead) (c : Import FileData) : Import FileData :=
  foldl (fun c file => handleImport JSON_parse onImport file c) c files.

(** The document a file hands to [onImport], if it does. *)
Definition parsed (file : FileRead) : option FileData :=
  match file with
  | Loaded (Some text) => JSON_parse text
  | _ => None
  end.
End FileInput.
Arguments handleFileChange {FileData} JSON_parse onImport files c.
Arguments handleDragOver {FileData} d.
Arguments handleDragLeave {FileData} d.
Arguments handleDrop {FileData} JSON_parse onImport files d.
Arguments importAll {FileData} JSON_parse onImport files c.
Arguments parsed {FileData} JSON_parse file.

(** ** Colours *)

Definition COLORS : list jsstring :=
  [js "bg-red-200"; js "bg-yellow-200"; js "bg-green-200"; js "bg-blue-200";
   js "bg-indigo-200"; js "bg-purple-200"; js "bg-pink-200"; js "bg-gray-200"].
Definition BORDER_COLORS : list jsstring :=
  [js "border-red-500"; js "border-yellow-500"; js "border-green-500";
   js "border-blue-500"; js "border-indigo-500"; js "border-purple-500";
   js "border-pink-500"; js "border-gray-500"].
Definition TEXT_COLORS : list jsstring :=
  [js "text-red-800"; js "text-yellow-800"; js "text-green-800";
   js "text-blue-800"; js "text-indigo-800"; js "text-purple-800";
   js "text-pink-800"; js "text-gray-800"].

(** [arr.indexOf(x)]: the first position of [x], [-1] when it is absent. *)
Fixpoint indexOf_from (i : Z) (x : jsstring) (arr : list jsstring) : Z :=
  match arr with
  | [] => -1
  | y :: arr' => if decide (y = x) then i else indexOf_from (i + 1) x arr'
  end.
Definition indexOf (arr : list jsstring) (x : jsstring) : Z := indexOf_from 0 x arr.

(** [arr[i]] for an integer [i]: [undefined] outside the array. *)
Definition at_index {A : Type} (arr : list A) (i : Z) : option A :=
  if i <? 0 then None else arr !! Z.to_nat i.

(** [TEXT_COLORS[COLORS.indexOf(color) % TEXT_COLORS.length]]; the
    remainder [%] has the sign of the dividend. *)
Definition textColor (color : jsstring) : option jsstring :=
  at_index TEXT_COLORS
    (Z.rem (indexOf COLORS color) (Z.of_nat (length TEXT_COLORS))).

(** [ItemPopup]: [item.color || 'bg-gray-200'], then the text colour
    with the fallback ['text-gray-800']. *)
Definition popupTextColor (color : jsstring) : jsstring :=
  let colorClass := if truthy color then color else js "bg-gray-200" in
  default (js "text-gray-800") (textColor colorClass).

(** ** Dashboard summaries *)

(** [highlights.slice(0, 3)] *)
Definition dashboardHighlights (s : App) : list Highlight.t :=
  take 3 (highlights s).

(** [todos.filter(t => !t.completed).slice(0, 3)] *)
Definition dashboardTodos (s : App) : list Todo.t :=
  take 3 (filter (fun t => Todo.completed t = false) (todos s)).

(** [a >= b] on the time values of two dates; false when one is [NaN]. *)
Definition date_ge (a b : option Z) : bool :=
  match a, b with
  | Some x, Some y => y <=? x
  | _, _ => false
  end.

Section Dashboard.
Variable Date_getTime : jsstring -> option Z.

(** [new Date(e.date) >= new Date(formatDateYYYYMMDD(new Date()))], with
    [today] the formatted current day. *)
Definition upcoming (today : jsstring) (e : CalendarEvent.t) : bool :=
  date_ge (Date_getTime (CalendarEvent.date e)) (Date_getTime today).

Definition dashboardEvents (today : jsstring) (s : App) : list CalendarEvent.t :=
  take 3 (filter (fun e => upcoming today e = true) (events s)).
End Dashboard.

(** ** Calendar helpers *)

(** The decimal digits of a non-negative integer, most significant
    first; [fuel] bounds the number of digits after the first. *)
Fixpoint digits_of (fuel : nat) (n : Z) (acc : jsstring) : jsstring :=
  let acc' := Z.to_N (48 + n mod 10) :: acc in
  match fuel with
  | O => acc'
  | S fuel' => if n / 10 =? 0 then acc' else digits_of fuel' (n / 10) acc'
  end.

(** [n.toString()] for an integer [n] (below the exponent notation). *)
Definition Number_toString (n : Z) : jsstring :=
  if n <? 0 then 45%N :: digits_of (Z.to_nat (- n)) (- n) []
  else digits_of (Z.to_nat n) n [].

(** [s.padStart(2, '0')] *)
Definition padStart2 (s : jsstring) : jsstring :=
  replicate (2 - length s) 48%N ++ s.

(** A valid [Date] as the calendar views use it: its local year, month
    ([0] for January) and day of the month. *)
Record JsDate := mkJsDate
  { getFullYear : Z; getMonth : Z; getDate : Z }.

#[global] Instance JsDate_eq_dec : EqDecision JsDate.
Proof. solve_decision. Defined.

(** [formatDateYYYYMMDD] *)
Definition formatDateYYYYMMDD (date : JsDate) : jsstring :=
  let year := Number_toString (getFullYear date) in
  let month := padStart2 (Number_toString (getMonth date + 1)) in
  let day := padStart2 (Number_toString (getDate date)) in
  year ++ [45%N] ++ month ++ [45%N] ++ day.

(** Years all of whose days have a time value in the range of [Date]
    (100,000,000 days on either side of 1970), in any time zone; a date
    built outside the range is an invalid date, which [JsDate] leaves
    out. *)
Definition Date_range (year : Z) : Prop := -271820 <= year <= 275759.

(** [new Date(year, month, 1)], for time values in the range of [Date]:
    a year from 0 to 99 stands for 1900 + year, and the month is carried
    into the year. *)
Definition Date_first (year month : Z) : JsDate :=
  let yr := if (0 <=? year) && (year <=? 99) then 1900 + year else year in
  mkJsDate (yr + month / 12) (month mod 12) 1.

(** [date.setDate(date.getDate() + 1)] where local time is UTC: the
    next day of the calendar. *)
Definition nextDay_UTC (date : JsDate) : JsDate :=
  if getDate date <? days_in_month (getFullYear date) (getMonth date + 1)
  then mkJsDate (getFullYear date) (getMonth date) (getDate date + 1)
  else if getMonth date <? 11
       then mkJsDate (getFullYear date) (getMonth date + 1) 1
       else mkJsDate (getFullYear date + 1) 0 1.

(** The same step in a time zone whose local calendar lacks the day
    [gap]: the local time asked for does not exist, and the engine lands
    on the day after it.  Pacific/Apia has no 30 December 2011. *)
Definition nextDay_skipping (gap : JsDate) (date : JsDate) : JsDate :=
  if decide (nextDay_UTC date = gap) then nextDay_UTC gap else nextDay_UTC date.

Section LocalTime.
(** [date.setDate(date.getDate() + 1)] is worked out in the local time of
    the engine, so the local day it lands on depends on the time zone:
    it is a parameter, from the local day before the call to the local
    day after it. *)
Variable Date_setDate_next : JsDate -> JsDate.

(** The [while] loop of [getDaysInMonth]; [fuel] bounds its tests. *)
Fixpoint daysLoop (fuel : nat) (month : Z) (date : JsDate) (days : list JsDate)
    : list JsDate :=
  match fuel with
  | O => days
  | S fuel' =>
      if getMonth date =? month
      then daysLoop fuel' month (Date_setDate_next date) (days ++ [date])
      else days
  end.

Definition getDaysInMonth_fuel (fuel : nat) (year month : Z) : list JsDate :=
  daysLoop fuel month (Date_first year month) [].

(** A month has at most 31 days, so 32 tests end the loop. *)
Definition getDaysInMonth (year month : Z) : list JsDate :=
  getDaysInMonth_fuel 32 year month.

(** The local calendar of the time zone has every day of the month: from
    each day but the last the step lands on the next day of the month,
    and from the last day it leaves the month. *)
Definition whole_month (year month : Z) : Prop :=
  forall d, 1 <= d <= days_in_month year (month + 1) ->
    if d <? days_in_month year (month + 1)
    then Date_setDate_next (mkJsDate year month d) = mkJsDate year month (d + 1)
    else getMonth (Date_setDate_next (mkJsDate year month d)) <> month.
End LocalTime.

(** The months counted from year 0. *)
Definition month_index (date : JsDate) : Z :=
  12 * getFullYear date + getMonth date.

(** The local state of [CalendarSection]. *)
Record Calendar := mkCalendar
  { currentMonthDate : JsDate; eventForm : EventForm }.

Definition clearSelectedDate (f : EventForm) : EventForm :=
  mkEventForm None (newEventTime f) (newEventTitle f) (newEventColor f)
              (linkedHighlightId f) (linkedResourceId f).

(** [changeMonth] *)
Definition changeMonth (delta : Z) (c : Calendar) : Calendar :=
  mkCalendar
    (Date_first (getFullYear (currentMonthDate c))
                (getMonth (currentMonthDate c) + delta))
    (clearSelectedDate (eventForm c)). (* Reset selected date when changing month *)

(** The two [select] elements of the event form: choosing one relation
    clears the other; the empty value stands for no relation. *)
Definition pickLinkedHighlight (value : jsstring) (f : EventForm) : EventForm :=
  mkEventForm (selectedDate f) (newEventTime f) (newEventTitle f) (newEventColor f)
              (if truthy value then Some value else None) None.
Definition pickLinkedResource (value : jsstring) (f : EventForm) : EventForm :=
  mkEventForm (selectedDate f) (newEventTime f) (newEventTitle f) (newEventColor f)
              None (if truthy value then Some value else None).

(** The form of a freshly mounted [CalendarSection]. *)
Definition eventForm_initial : EventForm :=
  mkEventForm None [] [] (js "bg-blue-200") None None.

(** What the user can do to the event form. *)
Inductive FormAction :=
| TypeTitle (value : jsstring)
| TypeTime (value : jsstring)
| PickColor (color : jsstring)
| ClickDay (dateStr : jsstring)
| PickHighlight (value : jsstring)
| PickResource (value : jsstring)
| Remount (* the section is mounted anew *)
| SubmitEvent (env : Env).

Section FormSteps.
Variable Date_getTime : jsstring -> option Z.

Definition formStep (a : FormAction) (c : EventForm * App) : EventForm * App :=
  let f := c.1 in
  match a with
  | TypeTitle v =>
      (mkEventForm (selectedDate f) (newEventTime f) v (newEventColor f)
                   (linkedHighlightId f) (linkedResourceId f), c.2)
  | TypeTime v =>
      (mkEventForm (selectedDate f) v (newEventTitle f) (newEventColor f)
                   (linkedHighlightId f) (linkedResourceId f), c.2)
  | PickColor v =>
      (mkEventForm (selectedDate f) (newEventTime f) (newEventTitle f) v
                   (linkedHighlightId f) (linkedResourceId f), c.2)
  | ClickDay d =>
      (mkEventForm (Some d) (newEventTime f) (newEventTitle f) (newEventColor f)
                   (linkedHighlightId f) (linkedResourceId f), c.2)
  | PickHighlight v => (pickLinkedHighlight v f, c.2)
  | PickResource v => (pickLinkedResource v f, c.2)
  | Remount => (eventForm_initial, c.2)
  | SubmitEvent env => handleAddEvent Date_getTime env f c.2
  end.

End FormSteps.


(** ** Grouping by day *)

(** [s.split('T')[0]]: the part before the first [T]. *)
Fixpoint before_T (s : jsstring) : jsstring :=
  match s with
  | [] => []
  | c :: s' => if (c =? 84)%N then [] else c :: before_T s'
  end.

Section GroupBy.
(** The property names every object inherits from [Object.prototype]
    ([constructor], [toString], ...); they are the engine's. *)
Variable inherited : jsstring -> bool.
Context {A : Type} (key : A -> jsstring).

(** [(acc[k] = acc[k] || []).push(x)]: under an inherited name [acc[k]]
    is not an array and the call of [push] throws [TypeError]. *)
Definition group_push (acc : gmap jsstring (list A)) (x : A)
    : option (gmap jsstring (list A)) :=
  if inherited (key x) then None
  else Some (<[key x := default [] (acc !! key x) ++ [x]]> acc).

(** [l.reduce((acc, x) => ..., {})] *)
Definition groupByKey (l : list A) : option (gmap jsstring (list A)) :=
  foldl (fun acc x => acc ≫= fun m => group_push m x) (Some ∅) l.
End GroupBy.

(** [eventsByDate] and [highlightsByDate] *)
Definition eventsByDate (inherited : jsstring -> bool) (events : list CalendarEvent.t) :=
  groupByKey inherited CalendarEvent.date events.
Definition highlightsByDate (inherited : jsstring -> bool) (highlights : list Highlight.t) :=
  groupByKey inherited (fun hl => before_T (Highlight.datetime hl)) highlights.

(** [byDate[dateStr] || []] for a name that is not inherited. *)
Definition onDay {A : Type} (byDate : gmap jsstring (list A)) (dateStr : jsstring)
    : list A :=
  default [] (byDate !! dateStr).

(** ** Relations between the collections *)

(** Every relation of an event names an entity that is there. *)
Definition refs_ok (s : App) : Prop :=
  forall e, e ∈ events s ->
    (forall h, CalendarEvent.relatedHighlightId e = Some h ->
               h ∈ Highlight.id <$> highlights s)
    /\ (forall r, CalendarEvent.relatedResourceId e = Some r ->
                  r ∈ Resource.id <$> resources s).

(** An [addEvent] call whose relations name entities of the state (the
    [select] elements of the form only offer those). *)
Definition op_refs_ok (s : App) (o : Op) : Prop :=
  match o with
  | AddEvent _ _ _ _ rh rr =>
      (forall h, rh = Some h -> h ∈ Highlight.id <$> highlights s)
      /\ (forall r, rr = Some r -> r ∈ Resource.id <$> resources s)
  | _ => True
  end.

Section Runs.
Variable Date_getTime : jsstring -> option Z.

Fixpoint run_refs_ok (calls : list (Env * Op)) (s : App) : Prop :=
  match calls with
  | [] => True
  | c :: calls' =>
      op_refs_ok s c.2 /\ run_refs_ok calls' (step Date_getTime c.1 c.2 s)
  end.
End Runs.

Definition is_delete (o : Op) : bool :=
  match o with
  | DeleteHighlight _ | DeleteTodo _ | DeleteEvent _
  | DeleteResource _ | DeleteIdeapadNote _ => true
  | _ => false
  end.

(** ** More concrete inputs *)

(** The state after the first five calls of [calls_example]: one
    highlight, two todos, two events. *)
Definition app_five : App := run iso_getTime (take 5 calls_example) initial.

(** A [JSON.stringify] stand-in for the highlights that writes
    [doc_highlights] for the one highlight and [[]] otherwise, and one
    for the other collections, used on the empty array only. *)
Definition stringify_highlights_1 (l : list Highlight.t) : jsstring :=
  if decide (l = [highlight_1]) then doc_highlights else js "[]".
Definition stringify_empty {A : Type} (l : list A) : jsstring := js "[]".

(** A store that accepts every write, and one that is full. *)
Definition accepts_all (ls : Storage) (key value : jsstring) : bool := true.
Definition accepts_none (ls : Storage) (key value : jsstring) : bool := false.

Definition storage_empty : Storage := fun _ => Null.

Definition state_saved : NoteAppState :=
  mkNoteAppState (mkApp [highlight_1] [] [] [] []) false.

(** Property names of [Object.prototype]. *)
Definition inherited_names (k : jsstring) : bool :=
  bool_decide (k ∈ [js "constructor"; js "toString"; js "valueOf";
                    js "hasOwnProperty"; js "isPrototypeOf";
                    js "propertyIsEnumerable"; js "toLocaleString";
                    js "__proto__"; js "__defineGetter__"; js "__defineSetter__";
                    js "__lookupGetter__"; js "__lookupSetter__"]).


(** The calendar opened on the 31st of January 2024. *)
Definition calendar_example : Calendar :=
  mkCalendar (mkJsDate 2024 0 31) eventForm_initial.

(** Three files: one that is not JSON, one that cannot be read, one
    with the todos document. *)
Definition files_example : list FileRead :=
  [ Loaded (Some (js "[{")); Failed; Loaded (Some doc_todos) ].

(** * Properties *)

(** ** Strings *)

Lemma trimStart_nil_iff (s : jsstring) :
  trimStart s = [] <-> whitespace_only s.
Proof.
  unfold whitespace_only.
  induction s as [|c s IH]; simpl.
  - split; [constructor | reflexivity].
  - destruct (is_ws c) eqn:E.
    + rewrite IH. split.
      * intros H. constructor; assumption.
      * intros H. inversion H; assumption.
    + split; [discriminate|].
      intros H. inversion H; congruence.
Qed.

(** [!s.trim()] holds exactly of the empty and the whitespace-only strings. *)
Lemma blank_iff (s : jsstring) :
  blank s = true <-> whitespace_only s.
Proof.
  unfold blank, trim, trimEnd.
  rewrite <- trimStart_nil_iff.
  destruct (trimStart s) as [|c r] eqn:E.
  - simpl. split; reflexivity.
  - split; [|discriminate].
    destruct (reverse (trimStart (reverse (c :: r)))) as [|c' r'] eqn:E';
      simpl; [|discriminate].
    intros _. exfalso.
    apply (f_equal reverse) in E'. rewrite reverse_involutive in E'.
    simpl in E'. apply trimStart_nil_iff in E'.
    unfold whitespace_only in E'. rewrite Forall_reverse in E'.
    inversion E' as [|? ? Hc Hr]; subst.
    simpl in E.
    assert (Hs : trimStart s <> []) by (rewrite E; discriminate).
    clear E' Hr.
    revert E. clear Hs. induction s as [|d s IHs]; simpl; [discriminate|].
    destruct (is_ws d) eqn:Ed; [exact IHs|].
    intros [= -> ->]. congruence.
Qed.

(** ** The sort *)

Section SortFacts.
Context {A : Type} (cmp : A -> A -> Z).

Lemma insert_perm (x : A) (l : list A) : insert cmp x l ≡ₚ x :: l.
Proof.
  induction l as [|y l IH]; simpl; [reflexivity|].
  destruct (decide (0 < cmp x y)); [|reflexivity].
  rewrite IH. apply Permutation_swap.
Qed.

Lemma sort_perm (l : list A) : sort cmp l ≡ₚ l.
Proof.
  induction l as [|x l IH]; simpl; [reflexivity|].
  rewrite insert_perm. by rewrite IH.
Qed.

Lemma sort_length (l : list A) : length (sort cmp l) = length l.
Proof. by rewrite sort_perm. Qed.

Lemma elem_of_sort (x : A) (l : list A) : x ∈ sort cmp l <-> x ∈ l.
Proof. by rewrite sort_perm. Qed.

(** An element that compares less or equal to all of [l] goes first. *)
Lemma insert_first (x : A) (l : list A) :
  Forall (fun y => cmp x y <= 0) l -> insert cmp x l = x :: l.
Proof.
  destruct l as [|y l]; simpl; [reflexivity|].
  intros H. inversion H; subst.
  destruct (decide (0 < cmp x y)); [lia | reflexivity].
Qed.

(** Whatever the comparator, [insert] only adds [x] somewhere. *)
Lemma filter_insert_out (P : A -> Prop) `{forall a, Decision (P a)}
    (x : A) (l : list A) :
  ~ P x -> filter P (insert cmp x l) = filter P l.
Proof.
  intros Hx. induction l as [|y l IH]; simpl.
  - by rewrite filter_cons_False.
  - destruct (decide (0 < cmp x y)).
    + rewrite !filter_cons, IH. reflexivity.
    + by rewrite (filter_cons_False _ x).
Qed.

(** The comparator orders the well-formed elements ([V]) by the total
    preorder [R]. *)
Section Consistent.
Context (R : relation A) (V : A -> Prop).
Hypothesis R_trans : forall a b c, R a b -> R b c -> R a c.
Hypothesis R_cmp : forall a b, R a b -> cmp a b <= 0.
Hypothesis cmp_R : forall a b, V a -> V b -> cmp a b <= 0 -> R a b.
Hypothesis cmp_R_gt : forall a b, V a -> V b -> 0 < cmp a b -> R b a.

Lemma insert_sorted (x : A) (l : list A) :
  V x -> Forall V l -> StronglySorted R l -> StronglySorted R (insert cmp x l).
Proof.
  intros Vx. induction l as [|y l IH]; intros Vl Hl; simpl.
  - repeat constructor.
  - inversion Vl as [|? ? Vy Vl']; subst.
    apply StronglySorted_cons in Hl as [Hy Hl].
    destruct (decide (0 < cmp x y)) as [Hgt|Hle].
    + apply StronglySorted_cons. split; [|by apply IH].
      rewrite insert_perm. constructor; [by apply cmp_R_gt | exact Hy].
    + apply StronglySorted_cons. split.
      * assert (Rxy : R x y) by (apply cmp_R; [done..|lia]).
        constructor; [exact Rxy|].
        eapply Forall_impl; [exact Hy|]. intros z Hz. by eapply R_trans.
      * by apply StronglySorted_cons.
Qed.

Lemma sort_sorted (l : list A) :
  Forall V l -> StronglySorted R (sort cmp l).
Proof.
  induction l as [|x l IH]; intros Vl; simpl; [constructor|].
  inversion Vl; subst.
  apply insert_sorted; [done| by rewrite sort_perm | by apply IH].
Qed.

(** Sorting a sorted array changes nothing. *)
Lemma sort_id (l : list A) : StronglySorted R l -> sort cmp l = l.
Proof.
  induction l as [|x l IH]; intros Hl; simpl; [reflexivity|].
  apply StronglySorted_cons in Hl as [Hx Hl].
  rewrite IH by done. apply insert_first.
  eapply Forall_impl; [exact Hx|]. intros y Hy. by apply R_cmp.
Qed.

Lemma filter_sorted (P : A -> Prop) `{forall a, Decision (P a)} (l : list A) :
  StronglySorted R l -> StronglySorted R (filter P l).
Proof.
  induction l as [|x l IH]; intros Hl; [constructor|].
  apply StronglySorted_cons in Hl as [Hx Hl].
  rewrite filter_cons. destruct (decide (P x)); [|by apply IH].
  apply StronglySorted_cons. split; [|by apply IH].
  rewrite Forall_forall in Hx |- *. intros y Hy.
  apply list_elem_of_filter in Hy as [_ Hy]. by apply Hx.
Qed.

Lemma filter_insert_in (P : A -> Prop) `{forall a, Decision (P a)}
    (x : A) (l : list A) :
  V x -> Forall V l -> StronglySorted R l -> P x ->
  filter P (insert cmp x l) = insert cmp x (filter P l).
Proof.
  intros Vx Vl Hl Px. induction l as [|y l IH]; simpl.
  - by rewrite filter_cons_True.
  - inversion Vl as [|? ? Vy Vl']; subst.
    apply StronglySorted_cons in Hl as [Hy Hl].
    destruct (decide (0 < cmp x y)) as [Hgt|Hle].
    + rewrite !filter_cons, IH by done.
      destruct (decide (P y)); [|reflexivity].
      simpl. destruct (decide (0 < cmp x y)); [reflexivity|lia].
    + rewrite (filter_cons_True _ x) by done.
      symmetry. apply insert_first.
      assert (Rxy : R x y) by (apply cmp_R; [done..|lia]).
      rewrite Forall_forall. intros z Hz.
      apply list_elem_of_filter in Hz as [_ Hz].
      apply R_cmp. apply elem_of_cons in Hz as [->|Hz]; [done|].
      eapply R_trans; [exact Rxy|].
      rewrite Forall_forall in Hy. by apply Hy.
Qed.

(** The stable sort commutes with [filter]. *)
Lemma filter_sort (P : A -> Prop) `{forall a, Decision (P a)} (l : list A) :
  Forall V l -> filter P (sort cmp l) = sort cmp (filter P l).
Proof.
  induction l as [|x l IH]; intros Vl; [reflexivity|].
  inversion Vl; subst. simpl.
  rewrite filter_cons. destruct (decide (P x)).
  - rewrite filter_insert_in; [|done| by rewrite sort_perm
                               | by apply sort_sorted | done].
    simpl. by rewrite IH.
  - rewrite filter_insert_out by done. by apply IH.
Qed.

(** Append one element, sort, then drop it again. *)
Lemma filter_sort_snoc (P : A -> Prop) `{forall a, Decision (P a)}
    (x : A) (l : list A) :
  V x -> Forall V l -> Forall P l -> ~ P x ->
  filter P (sort cmp (l ++ [x])) = sort cmp l.
Proof.
  intros Vx Vl Pl Px.
  rewrite filter_sort by (apply Forall_app; split; [done|by constructor]).
  rewrite filter_app, (filter_cons_False _ x) by done.
  rewrite filter_nil, app_nil_r.
  f_equal. clear Vl. induction Pl as [|y l Py Pl IH]; [reflexivity|].
  by rewrite filter_cons_True, IH.
Qed.
End Consistent.
End SortFacts.

(** ** Deleting *)

Lemma filter_all {A : Type} (P : A -> Prop) `{forall a, Decision (P a)} (l : list A) :
  Forall P l -> filter P l = l.
Proof.
  induction 1 as [|x l Hx Hl IH]; [reflexivity|].
  by rewrite filter_cons_True, IH.
Qed.

(** No element carries [id], so [prev.filter(x => x.id !== id)] keeps all. *)
Lemma filter_absent {A : Type} (key : A -> jsstring) (id : jsstring) (l : list A) :
  id ∉ key <$> l -> filter (fun a => key a <> id) l = l.
Proof.
  intros Hid. apply filter_all. rewrite Forall_forall. intros a Ha Heq.
  apply Hid. rewrite <- Heq. by apply list_elem_of_fmap_2.
Qed.

Lemma filter_partition {A : Type} (P Q : A -> Prop)
    `{forall a, Decision (P a)} `{forall a, Decision (Q a)} (l : list A) :
  (forall a, Q a <-> ~ P a) -> l ≡ₚ filter P l ++ filter Q l.
Proof.
  intros HQ. induction l as [|x l IH]; [reflexivity|].
  rewrite !filter_cons.
  destruct (decide (P x)) as [p|p], (decide (Q x)) as [q|q];
    try (exfalso; apply HQ in q; contradiction);
    try (exfalso; apply q, HQ, p).
  - simpl. by rewrite <- IH.
  - rewrite <- Permutation_middle. by rewrite <- IH.
Qed.

(** C1.  [deleteHighlight id] takes out of the events exactly those whose
    [relatedHighlightId] is [id], and [deleteResource id] exactly those
    whose [relatedResourceId] is [id]: an event is there afterwards iff it
    was there and does not carry the reference, the survivors keep their
    order, and survivors plus referencing events make up the old array. *)
Theorem delete_cascade_exact (s : App) (id : jsstring) :
  ((forall e, e ∈ events (deleteHighlight id s) <->
              e ∈ events s /\ CalendarEvent.relatedHighlightId e <> Some id)
   /\ sublist (events (deleteHighlight id s)) (events s)
   /\ events s ≡ₚ events (deleteHighlight id s)
        ++ filter (fun e => CalendarEvent.relatedHighlightId e = Some id) (events s))
  /\
  ((forall e, e ∈ events (deleteResource id s) <->
              e ∈ events s /\ CalendarEvent.relatedResourceId e <> Some id)
   /\ sublist (events (deleteResource id s)) (events s)
   /\ events s ≡ₚ events (deleteResource id s)
        ++ filter (fun e => CalendarEvent.relatedResourceId e = Some id) (events s)).
Proof.
  split; simpl.
  - split; [|split].
    + intros e. rewrite list_elem_of_filter. tauto.
    + apply sublist_filter.
    + apply filter_partition. intros e.
      destruct (decide (CalendarEvent.relatedHighlightId e = Some id)); tauto.
  - split; [|split].
    + intros e. rewrite list_elem_of_filter. tauto.
    + apply sublist_filter.
    + apply filter_partition. intros e.
      destruct (decide (CalendarEvent.relatedResourceId e = Some id)); tauto.
Qed.

(** C2 (as amended).  Deleting an id that no entity of the collection
    has: [deleteTodo], [deleteEvent] and [deleteIdeapadNote] leave the
    whole state as it is; [deleteHighlight] and [deleteResource] leave
    their own collection and the three unrelated ones as they are and
    still filter the events by the reference, so they leave the whole
    state as it is exactly when no event refers to the id. *)
Theorem delete_absent (s : App) (id : jsstring) :
  (id ∉ Todo.id <$> todos s -> deleteTodo id s = s)
  /\ (id ∉ CalendarEvent.id <$> events s -> deleteEvent id s = s)
  /\ (id ∉ IdeapadNote.id <$> ideapadNotes s -> deleteIdeapadNote id s = s)
  /\ (id ∉ Highlight.id <$> highlights s ->
      deleteHighlight id s =
        setEvents (filter (fun e => CalendarEvent.relatedHighlightId e <> Some id)) s
      /\ (deleteHighlight id s = s <->
          Forall (fun e => CalendarEvent.relatedHighlightId e <> Some id) (events s)))
  /\ (id ∉ Resource.id <$> resources s ->
      deleteResource id s =
        setEvents (filter (fun e => CalendarEvent.relatedResourceId e <> Some id)) s
      /\ (deleteResource id s = s <->
          Forall (fun e => CalendarEvent.relatedResourceId e <> Some id) (events s))).
Proof.
  destruct s as [hs ts es rs ns]; simpl.
  unfold deleteTodo, deleteEvent, deleteIdeapadNote, deleteHighlight,
    deleteResource, setTodos, setEvents, setIdeapadNotes, setHighlights,
    setResources; simpl.
  repeat split.
  - intros H. by rewrite filter_absent.
  - intros H. by rewrite filter_absent.
  - intros H. by rewrite filter_absent.
  - by rewrite filter_absent.
  - rewrite filter_absent by done. intros [= Heq].
    rewrite <- Heq. rewrite Forall_forall. intros e He.
    by apply list_elem_of_filter in He as [? _].
  - intros Hall. by rewrite filter_absent, filter_all.
  - by rewrite filter_absent.
  - rewrite filter_absent by done. intros [= Heq].
    rewrite <- Heq. rewrite Forall_forall. intros e He.
    by apply list_elem_of_filter in He as [? _].
  - intros Hall. by rewrite filter_absent, filter_all.
Qed.

(** ** Adding an event *)

(** C9.  [addEvent] stores the new event with the two relation arguments
    as they were passed and looks at neither the highlights nor the
    resources, which it leaves as they are: nothing requires the ids to
    belong to an existing Highlight or Resource. *)
Theorem addEvent_no_integrity_check (Date_getTime : jsstring -> option Z)
    (env : Env) (title date color : jsstring) (time : Z)
    (relatedHighlightId relatedResourceId : option jsstring) (s : App) :
  let s' := addEvent Date_getTime env title date color time
                     relatedHighlightId relatedResourceId s in
  CalendarEvent.mk (generateId env) title date time color
                   relatedHighlightId relatedResourceId (Date_now env)
    ∈ events s'
  /\ highlights s' = highlights s
  /\ resources s' = resources s
  /\ length (events s') = S (length (events s)).
Proof.
  simpl. repeat split.
  - rewrite elem_of_sort, elem_of_app, list_elem_of_singleton. by right.
  - rewrite sort_length, length_app. simpl. lia.
Qed.

(** ** Frame *)

(** C10.  An operation leaves every collection it does not write as it
    is; [writes] lists, per operation, its own collection and, for
    [deleteHighlight] and [deleteResource], the events. *)
Theorem frame (Date_getTime : jsstring -> option Z) (env : Env) (o : Op)
    (c : Collection) (s : App) :
  writes o c = false -> same_on c s (step Date_getTime env o s).
Proof.
  destruct o, c; simpl; intros H; try discriminate H; reflexivity.
Qed.

(** ** Toggling *)

Lemma toggled_involutive (id : jsstring) (t : Todo.t) :
  toggled id (toggled id t) = t.
Proof.
  unfold toggled. destruct (decide (Todo.id t = id)) as [E|E]; simpl.
  - rewrite decide_True by done. simpl. destruct t; simpl.
    by rewrite negb_involutive.
  - by rewrite decide_False.
Qed.

(** C5.  One [toggleTodo id] turns the todos into the array of the
    [toggled] entries (only [completed] of the entries with that id
    changes), reordered; a second one gives back the todos of before, each
    with every field as it was, up to their order; the other collections
    are not touched. *)
Theorem toggleTodo_twice (s : App) (id : jsstring) :
  (forall t, Todo.completed (toggled id t) =
               (if decide (Todo.id t = id) then negb (Todo.completed t)
                else Todo.completed t)
             /\ Todo.id (toggled id t) = Todo.id t
             /\ Todo.text (toggled id t) = Todo.text t
             /\ Todo.color (toggled id t) = Todo.color t
             /\ Todo.createdAt (toggled id t) = Todo.createdAt t)
  /\ todos (toggleTodo id s) ≡ₚ toggled id <$> todos s
  /\ todos (toggleTodo id (toggleTodo id s)) ≡ₚ todos s
  /\ highlights (toggleTodo id (toggleTodo id s)) = highlights s
  /\ events (toggleTodo id (toggleTodo id s)) = events s
  /\ resources (toggleTodo id (toggleTodo id s)) = resources s
  /\ ideapadNotes (toggleTodo id (toggleTodo id s)) = ideapadNotes s.
Proof.
  split; [|split; [|split]].
  - intros t. unfold toggled. destruct (decide (Todo.id t = id)); auto.
  - simpl. apply sort_perm.
  - simpl. rewrite !sort_perm. rewrite <- list_fmap_compose.
    erewrite list_fmap_ext; [by rewrite list_fmap_id|].
    intros i t _. simpl. apply toggled_involutive.
  - repeat split.
Qed.

(** ** The comparators order the collections as the display orders say *)

Lemma cmpHighlight_le a b : cmpHighlight a b <= 0 <-> highlight_before a b.
Proof. unfold cmpHighlight, highlight_before. lia. Qed.
Lemma cmpHighlight_gt a b : 0 < cmpHighlight a b -> highlight_before b a.
Proof. unfold cmpHighlight, highlight_before. lia. Qed.
Lemma highlight_before_trans a b c :
  highlight_before a b -> highlight_before b c -> highlight_before a c.
Proof. unfold highlight_before. lia. Qed.

Lemma cmpResource_le a b : cmpResource a b <= 0 <-> resource_before a b.
Proof. unfold cmpResource, resource_before. lia. Qed.
Lemma cmpResource_gt a b : 0 < cmpResource a b -> resource_before b a.
Proof. unfold cmpResource, resource_before. lia. Qed.
Lemma resource_before_trans a b c :
  resource_before a b -> resource_before b c -> resource_before a c.
Proof. unfold resource_before. lia. Qed.

Lemma cmpIdeapadNote_le a b : cmpIdeapadNote a b <= 0 <-> note_before a b.
Proof. unfold cmpIdeapadNote, note_before. lia. Qed.
Lemma cmpIdeapadNote_gt a b : 0 < cmpIdeapadNote a b -> note_before b a.
Proof. unfold cmpIdeapadNote, note_before. lia. Qed.
Lemma note_before_trans a b c :
  note_before a b -> note_before b c -> note_before a c.
Proof. unfold note_before. lia. Qed.

Ltac todo_cases :=
  unfold cmpTodo, todo_before, num_or, Number_of_bool;
  repeat match goal with
         | |- context [Todo.completed ?t] => destruct (Todo.completed t)
         end;
  repeat case_decide; try lia; intuition (try discriminate; try lia).

Lemma cmpTodo_le a b : cmpTodo a b <= 0 <-> todo_before a b.
Proof. todo_cases. Qed.
Lemma cmpTodo_gt a b : 0 < cmpTodo a b -> todo_before b a.
Proof. todo_cases. Qed.
Lemma todo_before_trans a b c :
  todo_before a b -> todo_before b c -> todo_before a c.
Proof.
  unfold todo_before.
  destruct (Todo.completed a), (Todo.completed b), (Todo.completed c);
    intuition (try discriminate; try lia).
Qed.

Section EventOrder.
Variable Date_getTime : jsstring -> option Z.

Ltac event_cases :=
  unfold cmpEvent, event_before, valid_date, num_or, num_sub, is_Some;
  repeat match goal with
         | |- context [Date_getTime ?d] => destruct (Date_getTime d)
         end;
  repeat case_decide;
  intuition (try discriminate; try lia);
  repeat match goal with
         | H : exists _, None = Some _ |- _ => destruct H; discriminate
         end.

Lemma cmpEvent_le a b :
  event_before Date_getTime a b -> cmpEvent Date_getTime a b <= 0.
Proof. event_cases. Qed.
Lemma cmpEvent_le_valid a b :
  valid_date Date_getTime a -> valid_date Date_getTime b ->
  cmpEvent Date_getTime a b <= 0 -> event_before Date_getTime a b.
Proof. event_cases. Qed.
Lemma cmpEvent_gt_valid a b :
  valid_date Date_getTime a -> valid_date Date_getTime b ->
  0 < cmpEvent Date_getTime a b -> event_before Date_getTime b a.
Proof. event_cases. Qed.
Lemma event_before_trans a b c :
  event_before Date_getTime a b -> event_before Date_getTime b c ->
  event_before Date_getTime a c.
Proof. event_cases. Qed.
End EventOrder.

Create HintDb order.
#[local] Hint Resolve highlight_before_trans resource_before_trans
  note_before_trans todo_before_trans event_before_trans
  cmpHighlight_gt cmpResource_gt cmpIdeapadNote_gt cmpTodo_gt
  cmpEvent_le cmpEvent_le_valid cmpEvent_gt_valid : order.
#[local] Hint Extern 1 (highlight_before _ _) => apply cmpHighlight_le : order.
#[local] Hint Extern 1 (resource_before _ _) => apply cmpResource_le : order.
#[local] Hint Extern 1 (note_before _ _) => apply cmpIdeapadNote_le : order.
#[local] Hint Extern 1 (todo_before _ _) => apply cmpTodo_le : order.
#[local] Hint Extern 1 (cmpHighlight _ _ <= 0) => apply cmpHighlight_le : order.
#[local] Hint Extern 1 (cmpResource _ _ <= 0) => apply cmpResource_le : order.
#[local] Hint Extern 1 (cmpIdeapadNote _ _ <= 0) => apply cmpIdeapadNote_le : order.
#[local] Hint Extern 1 (cmpTodo _ _ <= 0) => apply cmpTodo_le : order.

Lemma Forall_trivial {A : Type} (l : list A) : Forall (fun _ => True) l.
Proof. by apply Forall_true. Qed.

(** The four sorts by [createdAt] and by [completed] order any array. *)
Lemma sort_highlights_sorted l : StronglySorted highlight_before (sort cmpHighlight l).
Proof.
  apply (sort_sorted _ _ (fun _ => True)); eauto with order.
  apply Forall_trivial.
Qed.
Lemma sort_resources_sorted l : StronglySorted resource_before (sort cmpResource l).
Proof.
  apply (sort_sorted _ _ (fun _ => True)); eauto with order.
  apply Forall_trivial.
Qed.
Lemma sort_notes_sorted l : StronglySorted note_before (sort cmpIdeapadNote l).
Proof.
  apply (sort_sorted _ _ (fun _ => True)); eauto with order.
  apply Forall_trivial.
Qed.
Lemma sort_todos_sorted l : StronglySorted todo_before (sort cmpTodo l).
Proof.
  apply (sort_sorted _ _ (fun _ => True)); eauto with order.
  apply Forall_trivial.
Qed.

(** The sort by date orders an array of events with readable dates. *)
Lemma sort_events_sorted Date_getTime l :
  Forall (valid_date Date_getTime) l ->
  StronglySorted (event_before Date_getTime) (sort (cmpEvent Date_getTime) l).
Proof.
  apply (sort_sorted _ _ (valid_date Date_getTime)); eauto with order.
Qed.

Lemma Forall_filter_keep {A : Type} (P Q : A -> Prop) `{forall a, Decision (Q a)}
    (l : list A) :
  Forall P l -> Forall P (filter Q l).
Proof.
  rewrite !Forall_forall. intros Hl a Ha.
  apply list_elem_of_filter in Ha as [_ Ha]. by apply Hl.
Qed.

(** An order that holds under a weaker relation. *)
Lemma StronglySorted_weaken {A : Type} (R R' : relation A) (l : list A) :
  (forall a b, R a b -> R' a b) ->
  StronglySorted R l -> StronglySorted R' l.
Proof.
  intros HR. induction 1 as [|a l Hl IH Ha]; constructor; [done|].
  eapply Forall_impl; [exact Ha|]. intros b. apply HR.
Qed.

(** ** The sort-order invariant *)

(** One call keeps each collection in its display order, and the
    events' dates readable. *)
Lemma step_sorted (Date_getTime : jsstring -> option Z) (env : Env) (o : Op) (s : App) :
  let s' := step Date_getTime env o s in
  (StronglySorted highlight_before (highlights s) ->
   StronglySorted highlight_before (highlights s'))
  /\ (StronglySorted todo_before (todos s) ->
      StronglySorted todo_before (todos s'))
  /\ (StronglySorted resource_before (resources s) ->
      StronglySorted resource_before (resources s'))
  /\ (StronglySorted note_before (ideapadNotes s) ->
      StronglySorted note_before (ideapadNotes s'))
  /\ (dates_valid Date_getTime s -> op_valid Date_getTime o ->
      dates_valid Date_getTime s'
      /\ (StronglySorted (event_before Date_getTime) (events s) ->
          StronglySorted (event_before Date_getTime) (events s'))).
Proof.
  unfold dates_valid.
  destruct o; simpl; repeat (first [apply conj | intro]); try assumption;
    try apply sort_highlights_sorted; try apply sort_resources_sorted;
    try apply sort_notes_sorted; try apply sort_todos_sorted;
    try (by apply filter_sorted);
    try (by apply Forall_filter_keep);
    try (rewrite sort_perm; apply Forall_app; split; [done|by constructor]);
    try (apply sort_events_sorted; apply Forall_app; split; [done|by constructor]).
Qed.

(** A property that every call keeps holds after every sequence of calls. *)
Lemma run_invariant (Date_getTime : jsstring -> option Z) (P : App -> Prop)
    (Q : Op -> Prop) (calls : list (Env * Op)) (s : App) :
  (forall env o s, Q o -> P s -> P (step Date_getTime env o s)) ->
  Forall (fun c => Q c.2) calls ->
  P s -> P (run Date_getTime calls s).
Proof.
  intros Hstep. unfold run. revert s.
  induction calls as [|[env o] calls IH]; intros s Hc Hs; simpl; [done|].
  inversion Hc as [|? ? Ho Hc']; subst. simpl in Ho.
  apply IH; [done|]. by apply Hstep.
Qed.

(** C4, as amended.  Every finite sequence of add, delete and toggle calls
    keeps each collection in its display order when it starts in it (the
    empty array is): highlights, resources and ideapad notes newest
    first; todos incomplete before complete and newest first within each
    group; and events by ascending date and, on one date, newest first,
    provided the dates of the events (those there and those added) are
    strings the engine reads as dates; nothing is stated of the events
    when one of the dates is not read as a date. *)
Theorem sort_invariant (Date_getTime : jsstring -> option Z)
    (calls : list (Env * Op)) (s : App) :
  let s' := run Date_getTime calls s in
  (StronglySorted highlight_before (highlights s) ->
   StronglySorted highlight_before (highlights s'))
  /\ (StronglySorted todo_before (todos s) ->
      StronglySorted todo_before (todos s'))
  /\ (StronglySorted resource_before (resources s) ->
      StronglySorted resource_before (resources s'))
  /\ (StronglySorted note_before (ideapadNotes s) ->
      StronglySorted note_before (ideapadNotes s'))
  /\ (StronglySorted (event_before Date_getTime) (events s) ->
      dates_valid Date_getTime s ->
      Forall (fun c => op_valid Date_getTime c.2) calls ->
      StronglySorted (event_before Date_getTime) (events s')).
Proof.
  simpl. repeat apply conj.
  - apply (run_invariant Date_getTime
             (fun s => StronglySorted highlight_before (highlights s))
             (fun _ => True)); [|apply Forall_true; done].
    intros env o s0 _. apply (step_sorted Date_getTime env o s0).
  - apply (run_invariant Date_getTime
             (fun s => StronglySorted todo_before (todos s))
             (fun _ => True)); [|apply Forall_true; done].
    intros env o s0 _. apply (step_sorted Date_getTime env o s0).
  - apply (run_invariant Date_getTime
             (fun s => StronglySorted resource_before (resources s))
             (fun _ => True)); [|apply Forall_true; done].
    intros env o s0 _. apply (step_sorted Date_getTime env o s0).
  - apply (run_invariant Date_getTime
             (fun s => StronglySorted note_before (ideapadNotes s))
             (fun _ => True)); [|apply Forall_true; done].
    intros env o s0 _. apply (step_sorted Date_getTime env o s0).
  - intros Hs Hv Hc.
    apply (run_invariant Date_getTime
             (fun s => dates_valid Date_getTime s
                       /\ StronglySorted (event_before Date_getTime) (events s))
             (op_valid Date_getTime) calls s); [|done|done].
    intros env o s0 Ho [Hv0 Hs0].
    destruct (step_sorted Date_getTime env o s0) as (_ & _ & _ & _ & He).
    destruct (He Hv0 Ho) as [Hv1 Hs1]. split; [done|]. by apply Hs1.
Qed.

(** ** Add, then delete *)

Section AddDelete.
Context {A : Type} (key : A -> jsstring) (cmp : A -> A -> Z).

(** Up to order, appending [x], sorting and filtering out its id gives
    back the array when no element had that id. *)
Lemma add_delete_perm (x : A) (l : list A) :
  key x ∉ key <$> l ->
  filter (fun a => key a <> key x) (sort cmp (l ++ [x])) ≡ₚ l.
Proof.
  intros Hfresh. rewrite sort_perm, filter_app.
  rewrite (filter_cons_False _ x) by (intros H; by apply H).
  rewrite filter_nil, app_nil_r. by rewrite filter_absent.
Qed.

Context (R : relation A) (V : A -> Prop).
Hypothesis R_trans : forall a b c, R a b -> R b c -> R a c.
Hypothesis R_cmp : forall a b, R a b -> cmp a b <= 0.
Hypothesis cmp_R : forall a b, V a -> V b -> cmp a b <= 0 -> R a b.
Hypothesis cmp_R_gt : forall a b, V a -> V b -> 0 < cmp a b -> R b a.

(** For a consistent comparator it gives the array re-sorted, which is
    the array itself when it was in order. *)
Lemma add_delete_sort (x : A) (l : list A) :
  V x -> Forall V l -> key x ∉ key <$> l ->
  filter (fun a => key a <> key x) (sort cmp (l ++ [x])) = sort cmp l.
Proof.
  intros Vx Vl Hfresh.
  apply (filter_sort_snoc cmp R V); try done.
  - rewrite Forall_forall. intros a Ha Heq. apply Hfresh.
    rewrite <- Heq. by apply list_elem_of_fmap_2.
  - intros H. by apply H.
Qed.

Lemma add_delete_id (x : A) (l : list A) :
  V x -> Forall V l -> key x ∉ key <$> l -> StronglySorted R l ->
  filter (fun a => key a <> key x) (sort cmp (l ++ [x])) = l.
Proof.
  intros Vx Vl Hfresh Hl. rewrite add_delete_sort by done.
  by apply (sort_id cmp R).
Qed.
End AddDelete.

(** C6.  When the id that [generateId()] returns is new to the collection,
    adding an entity and deleting that id gives the collection of before
    the add with its sort applied again, hence the very same array when
    that one was in its display order.  For the events this needs dates
    the engine reads as dates; for any dates the events are those of
    before up to their order. *)
Theorem add_then_delete (Date_getTime : jsstring -> option Z) (env : Env) (s : App) :
  let id := generateId env in
  (id ∉ Highlight.id <$> highlights s ->
   forall text datetime color,
     let s' := deleteHighlight id (addHighlight env text datetime color s) in
     highlights s' = sort cmpHighlight (highlights s)
     /\ (StronglySorted highlight_before (highlights s) -> highlights s' = highlights s))
  /\ (id ∉ Todo.id <$> todos s ->
      forall text color,
        let s' := deleteTodo id (addTodo env text color s) in
        s' = setTodos (sort cmpTodo) s
        /\ (StronglySorted todo_before (todos s) -> s' = s))
  /\ (id ∉ CalendarEvent.id <$> events s ->
      forall title date color time rh rr,
        let s' := deleteEvent id (addEvent Date_getTime env title date color time rh rr s) in
        events s' ≡ₚ events s
        /\ (dates_valid Date_getTime s -> is_Some (Date_getTime date) ->
            s' = setEvents (sort (cmpEvent Date_getTime)) s
            /\ (StronglySorted (event_before Date_getTime) (events s) -> s' = s)))
  /\ (id ∉ Resource.id <$> resources s ->
      forall name type content color,
        let s' := deleteResource id (addResource env name type content color s) in
        resources s' = sort cmpResource (resources s)
        /\ (StronglySorted resource_before (resources s) -> resources s' = resources s))
  /\ (id ∉ IdeapadNote.id <$> ideapadNotes s ->
      forall text color,
        let s' := deleteIdeapadNote id (addIdeapadNote env text color s) in
        s' = setIdeapadNotes (sort cmpIdeapadNote) s
        /\ (StronglySorted note_before (ideapadNotes s) -> s' = s)).
Proof.
  destruct s as [hs ts es rs ns]. simpl.
  unfold deleteTodo, deleteEvent, deleteIdeapadNote, setTodos, setEvents,
    setIdeapadNotes, dates_valid; simpl.
  split; [|split; [|split; [|split]]]; intros Hfresh.
  - intros text datetime color.
    set (x := Highlight.mk _ _ _ _ _).
    pose proof (add_delete_sort Highlight.id cmpHighlight highlight_before
                  (fun _ => True)) as E.
    specialize (E highlight_before_trans (fun a b => proj2 (cmpHighlight_le a b))
                  (fun a b _ _ => proj1 (cmpHighlight_le a b))
                  (fun a b _ _ => cmpHighlight_gt a b) x hs I (Forall_trivial _) Hfresh).
    simpl in E. rewrite E. split; [done|].
    intros Hs. by apply (sort_id cmpHighlight highlight_before); eauto with order.
  - intros text color.
    set (x := Todo.mk _ _ _ _ _).
    pose proof (add_delete_sort Todo.id cmpTodo todo_before (fun _ => True)) as E.
    specialize (E todo_before_trans (fun a b => proj2 (cmpTodo_le a b))
                  (fun a b _ _ => proj1 (cmpTodo_le a b))
                  (fun a b _ _ => cmpTodo_gt a b) x ts I (Forall_trivial _) Hfresh).
    simpl in E. rewrite E. split; [done|].
    intros Hs. f_equal. by apply (sort_id cmpTodo todo_before); eauto with order.
  - intros title date color time rh rr.
    set (x := CalendarEvent.mk _ _ _ _ _ _ _ _).
    split.
    + apply (add_delete_perm CalendarEvent.id (cmpEvent Date_getTime) x es Hfresh).
    + intros Hv Hd.
      pose proof (add_delete_sort CalendarEvent.id (cmpEvent Date_getTime)
                    (event_before Date_getTime) (valid_date Date_getTime)) as E.
      specialize (E (event_before_trans Date_getTime) (cmpEvent_le Date_getTime)
                    (cmpEvent_le_valid Date_getTime) (cmpEvent_gt_valid Date_getTime)
                    x es Hd Hv Hfresh).
      simpl in E. rewrite E. split; [done|].
      intros Hs. f_equal.
      by apply (sort_id (cmpEvent Date_getTime) (event_before Date_getTime));
        eauto with order.
  - intros name type content color.
    set (x := Resource.mk _ _ _ _ _ _).
    pose proof (add_delete_sort Resource.id cmpResource resource_before
                  (fun _ => True)) as E.
    specialize (E resource_before_trans (fun a b => proj2 (cmpResource_le a b))
                  (fun a b _ _ => proj1 (cmpResource_le a b))
                  (fun a b _ _ => cmpResource_gt a b) x rs I (Forall_trivial _) Hfresh).
    simpl in E. rewrite E. split; [done|].
    intros Hs. by apply (sort_id cmpResource resource_before); eauto with order.
  - intros text color.
    set (x := IdeapadNote.mk _ _ _ _).
    pose proof (add_delete_sort IdeapadNote.id cmpIdeapadNote note_before
                  (fun _ => True)) as E.
    specialize (E note_before_trans (fun a b => proj2 (cmpIdeapadNote_le a b))
                  (fun a b _ _ => proj1 (cmpIdeapadNote_le a b))
                  (fun a b _ _ => cmpIdeapadNote_gt a b) x ns I (Forall_trivial _) Hfresh).
    simpl in E. rewrite E. split; [done|].
    intros Hs. f_equal. by apply (sort_id cmpIdeapadNote note_before); eauto with order.
Qed.

(** ** Empty input *)

Lemma blank_true (s : jsstring) : whitespace_only s -> blank s = true.
Proof. apply blank_iff. Qed.

(** C3 (as amended).  The check for empty input is the submit handlers':
    with a primary text (a title, a name) that is empty or of whitespace
    only, each handler returns at once, with the collections and the form
    as they were. *)
Theorem blank_submit_rejected (Date_getTime : jsstring -> option Z)
    (Date_toISOString : jsstring -> option jsstring) (env : Env) (s : App) :
  (forall f, whitespace_only (quickWriteText f) ->
             handleQuickWriteSubmit env f s = (f, s))
  /\ (forall f, whitespace_only (newHighlightText f) ->
                handleAddHighlight Date_toISOString env f s = (f, s))
  /\ (forall f, whitespace_only (newTodoText f) ->
                handleAddTodo env f s = (f, s))
  /\ (forall f, whitespace_only (newEventTitle f) ->
                handleAddEvent Date_getTime env f s = (f, s))
  /\ (forall f, whitespace_only (newNoteText f) ->
                handleAddNote env f s = (f, s))
  /\ (forall f, whitespace_only (newResourceName f) ->
                handleAddResource env f s = (f, s)).
Proof.
  repeat split; intros f Hf; apply blank_true in Hf.
  - unfold handleQuickWriteSubmit. by rewrite Hf.
  - unfold handleAddHighlight. by rewrite Hf.
  - unfold handleAddTodo. by rewrite Hf.
  - unfold handleAddEvent. by rewrite Hf.
  - unfold handleAddNote. by rewrite Hf.
  - unfold handleAddResource. by rewrite Hf.
Qed.

(** The [add] closures themselves take any text. *)
Lemma add_takes_any_text (Date_getTime : jsstring -> option Z) (env : Env)
    (text other color : jsstring) (time : Z) (s : App) :
  length (highlights (addHighlight env text other color s)) = S (length (highlights s))
  /\ length (todos (addTodo env text color s)) = S (length (todos s))
  /\ length (events (addEvent Date_getTime env text other color time None None s))
     = S (length (events s))
  /\ length (resources (addResource env text note other color s))
     = S (length (resources s))
  /\ length (ideapadNotes (addIdeapadNote env text color s))
     = S (length (ideapadNotes s)).
Proof.
  simpl. rewrite !sort_length, !length_app. simpl. lia.
Qed.

(** ** Loading *)

Section LoadFacts.
Variable parseHighlights : jsstring -> option (list Highlight.t).
Variable parseTodos : jsstring -> option (list Todo.t).
Variable parseEvents : jsstring -> option (list CalendarEvent.t).
Variable parseResources : jsstring -> option (list Resource.t).
Variable parseIdeapadNotes : jsstring -> option (list IdeapadNote.t).

Lemma getItem_None {A : Type} (parse : jsstring -> option (list A))
    (ls : Storage) (key : jsstring) :
  getItem ls key = None -> throws parse (ls key) = true.
Proof. unfold getItem. by destruct (ls key). Qed.

Lemma hydrate_cases {A : Type} (parse : jsstring -> option (list A))
    (setX : (list A -> list A) -> App -> App) (ls : Storage) (key : jsstring)
    (saved : option jsstring) (s : App) :
  (forall s, setX (fun old => old) s = s) ->
  getItem ls key = Some saved ->
  hydrate parse setX saved s =
    if throws parse (ls key) then None
    else Some (setX (hydrated parse (ls key)) s).
Proof.
  intros Hid. unfold getItem, hydrated, throws, hydrate.
  destruct (ls key) as [| |d]; intros [= <-]; simpl.
  - f_equal. symmetry. apply Hid.
  - destruct (truthy d); simpl; [|f_equal; symmetry; apply Hid].
    by destruct (parse d).
Qed.

Lemma load_try_cases (ls : Storage) (s : App) :
  load_try parseHighlights parseTodos parseEvents parseResources
           parseIdeapadNotes ls s =
    if load_throws parseHighlights parseTodos parseEvents parseResources
                   parseIdeapadNotes ls
    then None
    else Some (mkApp
      (hydrated parseHighlights (ls key_highlights) (highlights s))
      (hydrated parseTodos (ls key_todos) (todos s))
      (hydrated parseEvents (ls key_events) (events s))
      (hydrated parseResources (ls key_resources) (resources s))
      (hydrated parseIdeapadNotes (ls key_ideapadNotes) (ideapadNotes s))).
Proof.
  unfold load_try, load_throws.
  destruct (getItem ls key_highlights) as [a|] eqn:Ea; simpl;
    [|by rewrite (getItem_None parseHighlights _ _ Ea)].
  destruct (getItem ls key_todos) as [b|] eqn:Eb; simpl;
    [|by rewrite (getItem_None parseTodos _ _ Eb), !orb_true_r].
  destruct (getItem ls key_events) as [c|] eqn:Ec; simpl;
    [|by rewrite (getItem_None parseEvents _ _ Ec), !orb_true_r].
  destruct (getItem ls key_resources) as [d|] eqn:Ed; simpl;
    [|by rewrite (getItem_None parseResources _ _ Ed), !orb_true_r].
  destruct (getItem ls key_ideapadNotes) as [e|] eqn:Ee; simpl;
    [|by rewrite (getItem_None parseIdeapadNotes _ _ Ee), !orb_true_r].
  rewrite (hydrate_cases parseHighlights setHighlights ls key_highlights a)
    by first [assumption | by intros []].
  destruct (throws parseHighlights (ls key_highlights)); simpl; [done|].
  rewrite (hydrate_cases parseTodos setTodos ls key_todos b) by first [assumption | by intros []].
  destruct (throws parseTodos (ls key_todos)); simpl; [done|].
  rewrite (hydrate_cases parseEvents setEvents ls key_events c) by first [assumption | by intros []].
  destruct (throws parseEvents (ls key_events)); simpl; [done|].
  rewrite (hydrate_cases parseResources setResources ls key_resources d)
    by first [assumption | by intros []].
  destruct (throws parseResources (ls key_resources)); simpl; [done|].
  rewrite (hydrate_cases parseIdeapadNotes setIdeapadNotes ls key_ideapadNotes e)
    by first [assumption | by intros []].
  by destruct (throws parseIdeapadNotes (ls key_ideapadNotes)).
Qed.

(** C7 (as amended).  When no document makes the [try] block throw, each
    collection comes from its own document alone: the parsed array when
    the document is there, and what it was (empty at startup) when the
    document is missing or the empty string.  When one document cannot
    be read or is rejected by [JSON.parse], all five collections are set
    to the empty array. *)
Theorem load_all_or_nothing (ls : Storage) (s : App) :
  (load_throws parseHighlights parseTodos parseEvents parseResources
               parseIdeapadNotes ls = false ->
   load parseHighlights parseTodos parseEvents parseResources
        parseIdeapadNotes ls s =
     mkApp (hydrated parseHighlights (ls key_highlights) (highlights s))
           (hydrated parseTodos (ls key_todos) (todos s))
           (hydrated parseEvents (ls key_events) (events s))
           (hydrated parseResources (ls key_resources) (resources s))
           (hydrated parseIdeapadNotes (ls key_ideapadNotes) (ideapadNotes s)))
  /\ (load_throws parseHighlights parseTodos parseEvents parseResources
                  parseIdeapadNotes ls = true ->
      load parseHighlights parseTodos parseEvents parseResources
           parseIdeapadNotes ls s = mkApp [] [] [] [] []).
Proof.
  unfold load. rewrite load_try_cases.
  split; intros ->; reflexivity.
Qed.
End LoadFacts.

(** ** Importing *)

(** C8 (as amended).  A file whose text [JSON.parse] rejects leaves the
    collections as they were, calls [onImport] not at all and sets the
    format error message.  A file whose text parses is handed to
    [onImport]; the error message is cleared when the callback returns
    and is the format error message when the callback throws. *)
Theorem handleImport_outcome (FileData : Type)
    (JSON_parse : jsstring -> option FileData)
    (onImport : FileData -> App -> Completion App)
    (text : jsstring) (c : Import FileData) :
  let c' := handleImport JSON_parse onImport (Loaded (Some text)) c in
  (JSON_parse text = None ->
     app c' = app c /\ imported c' = imported c
     /\ error c' = Some msg_bad_format)
  /\ (forall d, JSON_parse text = Some d ->
        imported c' = d :: imported c
        /\ (forall s', onImport d (app c) = Returns s' ->
              app c' = s' /\ error c' = None)
        /\ (forall s', onImport d (app c) = Throws s' ->
              app c' = s' /\ error c' = Some msg_bad_format)).
Proof.
  simpl. split.
  - intros ->. by repeat split.
  - intros d ->. split; [by destruct (onImport d (app c))|].
    split; intros s' ->; by split.
Qed.

(** * The development at concrete inputs *)

Ltac by_evaluation := apply (bool_decide_unpack _); vm_compute; exact I.

(** Deleting an id nothing carries from a state with one todo and one
    highlight changes nothing. *)
Lemma delete_absent_witness :
  deleteTodo (js "zz") app_small = app_small
  /\ deleteEvent (js "zz") app_small = app_small
  /\ deleteIdeapadNote (js "zz") app_small = app_small
  /\ deleteHighlight (js "zz") app_small = app_small
  /\ deleteResource (js "zz") app_small = app_small.
Proof.
  destruct (delete_absent app_small (js "zz")) as (Ht & He & Hn & Hh & Hr).
  repeat apply conj.
  - apply Ht. by_evaluation.
  - apply He. by_evaluation.
  - apply Hn. by_evaluation.
  - apply Hh.
    + by_evaluation.
    + vm_compute. constructor.
  - apply Hr.
    + by_evaluation.
    + vm_compute. constructor.
Defined.

(** The id [h1] is no highlight's, and [deleteHighlight] still removes
    the event that refers to it. *)
Lemma delete_absent_highlight_drops_event :
  (js "h1" ∉ Highlight.id <$> highlights app_dangling)
  /\ length (events app_dangling) = 1%nat
  /\ events (deleteHighlight (js "h1") app_dangling) = []
  /\ deleteHighlight (js "h1") app_dangling <> app_dangling.
Proof.
  split; [by_evaluation|].
  split; [reflexivity|].
  split; [by vm_compute|].
  by_evaluation.
Qed.

(** Submitting forms whose text is two spaces. *)
Lemma blank_submit_rejected_witness :
  let blank2 := js "  " in
  handleQuickWriteSubmit env_1 (mkQuickWrite blank2 todo (js "bg-red-200")) app_small
    = (mkQuickWrite blank2 todo (js "bg-red-200"), app_small)
  /\ handleAddHighlight (fun _ => None) env_1
       (mkHighlightForm blank2 (js "2024-05-01T08:00") (js "bg-red-200")) app_small
     = (mkHighlightForm blank2 (js "2024-05-01T08:00") (js "bg-red-200"), app_small)
  /\ handleAddTodo env_1 (mkTodoForm [] (js "bg-red-200")) app_small
     = (mkTodoForm [] (js "bg-red-200"), app_small)
  /\ handleAddEvent iso_getTime env_1
       (mkEventForm (Some (js "2024-05-01")) [] blank2 (js "bg-red-200") None None)
       app_small
     = (mkEventForm (Some (js "2024-05-01")) [] blank2 (js "bg-red-200") None None,
        app_small)
  /\ handleAddNote env_1 (mkNoteForm blank2 (js "bg-red-200")) app_small
     = (mkNoteForm blank2 (js "bg-red-200"), app_small)
  /\ handleAddResource env_1
       (mkResourceForm blank2 link (js "https://example.com") (js "bg-red-200"))
       app_small
     = (mkResourceForm blank2 link (js "https://example.com") (js "bg-red-200"),
        app_small).
Proof.
  intros blank2.
  destruct (blank_submit_rejected iso_getTime (fun _ => None) env_1 app_small)
    as (Hq & Hh & Ht & He & Hn & Hr).
  repeat apply conj.
  - apply Hq. simpl. unfold whitespace_only. repeat constructor.
  - apply Hh. simpl. unfold whitespace_only. repeat constructor.
  - apply Ht. simpl. unfold whitespace_only. repeat constructor.
  - apply He. simpl. unfold whitespace_only. repeat constructor.
  - apply Hn. simpl. unfold whitespace_only. repeat constructor.
  - apply Hr. simpl. unfold whitespace_only. repeat constructor.
Defined.

(** [addHighlight] called with the empty text stores a Highlight; and the
    quick-write form, which checks the whole text and names the Resource
    by its first thirty code units, calls [addResource] with a name of
    thirty spaces, which is stored as well. *)
Lemma add_accepts_blank_text :
  (whitespace_only []
   /\ highlights (addHighlight env_1 [] (js "2024-05-01T08:00:00.000Z")
                               (js "bg-red-200") initial)
      = [Highlight.mk (js "lx1a0k") [] (js "2024-05-01T08:00:00.000Z")
                      (js "bg-red-200") 1000])
  /\ (whitespace_only (substring0 30 text_indented)
      /\ resources (addResource env_1 (substring0 30 text_indented) note
                                text_indented (js "bg-red-200") initial)
         = [Resource.mk (js "lx1a0k") (substring0 30 text_indented) note
                        text_indented (js "bg-red-200") 1000]
      /\ (handleQuickWriteSubmit env_1
            (mkQuickWrite text_indented resource (js "bg-red-200")) initial).2
         = addResource env_1 (substring0 30 text_indented) note
                       text_indented (js "bg-red-200") initial).
Proof.
  split.
  - split; [constructor | reflexivity].
  - split; [|split; reflexivity].
    simpl. unfold whitespace_only. repeat constructor.
Qed.

(** Seven calls from the empty state. *)
Lemma sort_invariant_witness :
  let s' := run iso_getTime calls_example initial in
  StronglySorted highlight_before (highlights s')
  /\ StronglySorted todo_before (todos s')
  /\ StronglySorted resource_before (resources s')
  /\ StronglySorted note_before (ideapadNotes s')
  /\ StronglySorted (event_before iso_getTime) (events s').
Proof.
  destruct (sort_invariant iso_getTime calls_example initial)
    as (Hh & Ht & Hr & Hn & He).
  repeat apply conj.
  - apply Hh. constructor.
  - apply Ht. constructor.
  - apply Hr. constructor.
  - apply Hn. constructor.
  - apply He.
    + constructor.
    + constructor.
    + unfold calls_example. repeat constructor; simpl; vm_compute; eauto.
Defined.

(** Three events are added to the empty state, the second with the date
    [someday], which is not read as a date.  All three are stored, and no
    arrangement of them is in ascending order of date; none is even in
    the order of the comparator of [addEvent], which puts the event of
    30 April before that of 1 May, that of 1 May before the undated one
    (it is newer) and the undated one before that of 30 April (it is
    newer). *)
Lemma unreadable_date_breaks_event_order :
  let s' := run iso_getTime calls_unreadable_date initial in
  StronglySorted (event_before iso_getTime) (events initial)
  /\ iso_getTime (js "someday") = None
  /\ events s' ≡ₚ [event_call; event_someday; event_review]
  /\ (forall l, l ≡ₚ events s' ->
        ~ StronglySorted (fun a b => cmpEvent iso_getTime a b <= 0) l)
  /\ (forall l, l ≡ₚ events s' ->
        ~ StronglySorted (event_before iso_getTime) l).
Proof.
  intros s'.
  assert (Hcmp : forall l, l ≡ₚ events s' ->
            ~ StronglySorted (fun a b => cmpEvent iso_getTime a b <= 0) l).
  { intros l Hl. symmetry in Hl. apply permutations_Permutation in Hl.
    revert l Hl. apply Forall_forall. by_evaluation. }
  repeat apply conj.
  - constructor.
  - reflexivity.
  - vm_compute. apply perm_swap.
  - exact Hcmp.
  - intros l Hl Hs. apply (Hcmp l Hl).
    eapply StronglySorted_weaken; [|exact Hs].
    intros a b. apply cmpEvent_le.
Qed.

(** Add and delete on a state with one todo and one highlight. *)
Lemma add_then_delete_witness :
  highlights (deleteHighlight (js "lx1c3z")
                (addHighlight env_3 (js "x") (js "2024-05-01T08:00:00.000Z")
                              (js "bg-red-200") app_small))
    = highlights app_small
  /\ deleteTodo (js "lx1c3z") (addTodo env_3 (js "x") (js "bg-red-200") app_small)
     = app_small
  /\ deleteEvent (js "lx1c3z")
       (addEvent iso_getTime env_3 (js "x") (js "2024-05-01") (js "bg-red-200")
                 3000 None None app_small)
     = app_small
  /\ resources (deleteResource (js "lx1c3z")
                  (addResource env_3 (js "x") link (js "https://example.com")
                               (js "bg-red-200") app_small))
     = resources app_small
  /\ deleteIdeapadNote (js "lx1c3z")
       (addIdeapadNote env_3 (js "x") (js "bg-red-200") app_small)
     = app_small.
Proof.
  destruct (add_then_delete iso_getTime env_3 app_small) as (Hh & Ht & He & Hr & Hn).
  repeat apply conj.
  - apply Hh.
    + by_evaluation.
    + vm_compute. repeat constructor.
  - apply Ht.
    + by_evaluation.
    + vm_compute. repeat constructor.
  - apply He.
    + by_evaluation.
    + constructor.
    + vm_compute. eauto.
    + constructor.
  - apply Hr.
    + by_evaluation.
    + constructor.
  - apply Hn.
    + by_evaluation.
    + constructor.
Defined.

(** With only the highlights document stored, the highlights are
    hydrated and the rest stays empty; with the todos document cut
    short, everything is empty. *)
Lemma load_all_or_nothing_witness :
  load parse_highlights_1 parse_empty parse_empty parse_empty parse_empty
       storage_highlights_only initial
    = mkApp [highlight_1] [] [] [] []
  /\ load parse_highlights_1 parse_empty parse_empty parse_empty parse_empty
          storage_bad_todos initial
     = mkApp [] [] [] [] [].
Proof.
  split.
  - apply (load_all_or_nothing parse_highlights_1 parse_empty parse_empty
             parse_empty parse_empty storage_highlights_only initial).
    vm_compute. reflexivity.
  - apply (load_all_or_nothing parse_highlights_1 parse_empty parse_empty
             parse_empty parse_empty storage_bad_todos initial).
    vm_compute. reflexivity.
Defined.

(** The highlights document parses to one Highlight, the todos document
    does not parse, and the load leaves the highlights empty. *)
Lemma load_failure_is_global :
  parse_highlights_1 doc_highlights = Some [highlight_1]
  /\ storage_bad_todos key_highlights = Item doc_highlights
  /\ storage_bad_todos key_todos = Item (js "[{")
  /\ highlights (load parse_highlights_1 parse_empty parse_empty parse_empty
                      parse_empty storage_bad_todos initial) = [].
Proof. by vm_compute. Qed.

(** A text that is not JSON, a document with one todo, and a callback
    that throws on [null]. *)
Lemma handleImport_outcome_witness :
  let c := mkImport (Some msg_read_error) app_small [] in
  handleImport (parse_only doc_todos [todo_1]) import_todos
               (Loaded (Some (js "[{"))) c
    = mkImport (Some msg_bad_format) app_small []
  /\ handleImport (parse_only doc_todos [todo_1]) import_todos
                  (Loaded (Some doc_todos)) c
     = mkImport None (setTodos (fun _ => [todo_1]) app_small) [[todo_1]]
  /\ handleImport (parse_only (js "null") ()) import_throws
                  (Loaded (Some (js "null"))) (mkImport None app_small [])
     = mkImport (Some msg_bad_format) app_small [()].
Proof.
  intros c.
  pose proof (handleImport_outcome _ (parse_only doc_todos [todo_1]) import_todos
                (js "[{") c) as [H1 _].
  pose proof (handleImport_outcome _ (parse_only doc_todos [todo_1]) import_todos
                doc_todos c) as [_ H2].
  pose proof (handleImport_outcome _ (parse_only (js "null") ()) import_throws
                (js "null") (mkImport None app_small [])) as [_ H3].
  split; [|split].
  - destruct H1 as (Ha & Hi & He); [by vm_compute|].
    destruct (handleImport _ _ _ c) as [e a i]. simpl in *. by subst.
  - destruct (H2 [todo_1]) as (Hi & Hr & _); [by vm_compute|].
    destruct (Hr (setTodos (fun _ => [todo_1]) app_small)) as [Ha He];
      [reflexivity|].
    destruct (handleImport _ _ _ c) as [e a i]. simpl in *. by subst.
  - destruct (H3 ()) as (Hi & _ & Ht); [by vm_compute|].
    destruct (Ht app_small) as [Ha He]; [reflexivity|].
    destruct (handleImport _ _ _ _) as [e a i]. simpl in *. by subst.
Defined.

(** The text [null] parses, the callback throws, and the error message
    is set, not cleared. *)
Lemma import_callback_throws :
  parse_only (js "null") () (js "null") = Some ()
  /\ error (handleImport (parse_only (js "null") ()) import_throws
                         (Loaded (Some (js "null"))) (mkImport None initial []))
     = Some msg_bad_format
  /\ imported (handleImport (parse_only (js "null") ()) import_throws
                            (Loaded (Some (js "null"))) (mkImport None initial []))
     = [()].
Proof. by vm_compute. Qed.

(** [deleteHighlight] does not write the todos. *)
Lemma frame_witness :
  todos (deleteHighlight (js "lx1b7q") app_small) = todos app_small.
Proof.
  apply (frame iso_getTime env_1 (DeleteHighlight (js "lx1b7q")) Todos app_small).
  reflexivity.
Defined.

(** A dangling reference right after [addEvent] on the empty state. *)
Lemma addEvent_dangling_example :
  exists e, events app_dangling = [e]
            /\ CalendarEvent.relatedHighlightId e = Some (js "h1")
            /\ js "h1" ∉ Highlight.id <$> highlights app_dangling.
Proof.
  eexists. split; [reflexivity|]. split; [reflexivity|]. by_evaluation.
Qed.

(** * More properties of the operations *)

(** ** Adding *)

(** An [add] keeps every entity that was there and adds exactly the new
    one: each collection after its [add] is the new entity together with
    the old array, up to order. *)
Theorem add_inserts_one (Date_getTime : jsstring -> option Z) (env : Env) (s : App) :
  (forall text datetime color,
     highlights (addHighlight env text datetime color s)
       ≡ₚ Highlight.mk (generateId env) text datetime color (Date_now env)
          :: highlights s)
  /\ (forall text color,
        todos (addTodo env text color s)
          ≡ₚ Todo.mk (generateId env) text false color (Date_now env) :: todos s)
  /\ (forall title date color time rh rr,
        events (addEvent Date_getTime env title date color time rh rr s)
          ≡ₚ CalendarEvent.mk (generateId env) title date time color rh rr
                              (Date_now env) :: events s)
  /\ (forall name type content color,
        resources (addResource env name type content color s)
          ≡ₚ Resource.mk (generateId env) name type content color (Date_now env)
             :: resources s)
  /\ (forall text color,
        ideapadNotes (addIdeapadNote env text color s)
          ≡ₚ IdeapadNote.mk (generateId env) text color (Date_now env)
             :: ideapadNotes s).
Proof.
  repeat apply conj; intros; simpl; rewrite sort_perm;
    symmetry; apply Permutation_cons_append.
Qed.

Section NewestFirst.
Context {A : Type} (cmp : A -> A -> Z) (R : relation A).
Hypothesis R_cmp : forall a b, R a b -> cmp a b <= 0.

(** An element that every element of a sorted array compares greater
    than ends up in front of the array. *)
Lemma sort_snoc_head (x : A) (l : list A) :
  StronglySorted R l -> Forall (fun p => 0 < cmp p x) l ->
  sort cmp (l ++ [x]) = x :: l.
Proof.
  induction l as [|p l IH]; intros Hl Hx; [reflexivity|].
  apply StronglySorted_cons in Hl as [Hp Hl].
  inversion Hx as [|? ? Hpx Hx']; subst.
  simpl. fold (sort cmp (l ++ [x])). rewrite IH by done.
  simpl. rewrite decide_True by done. f_equal.
  apply insert_first. eapply Forall_impl; [exact Hp|].
  intros y Hy. by apply R_cmp.
Qed.
End NewestFirst.

(** With a clock that has moved on since the entities of a collection
    were created, the new entity is put first: a new highlight, resource
    or ideapad note in front of the array, a new todo in front of the
    todos when every incomplete todo is older (the completed ones may
    have any age). *)
Theorem add_newest_first (env : Env) (s : App) :
  (StronglySorted highlight_before (highlights s) ->
   Forall (fun h => Highlight.createdAt h < Date_now env) (highlights s) ->
   forall text datetime color,
     highlights (addHighlight env text datetime color s)
     = Highlight.mk (generateId env) text datetime color (Date_now env)
       :: highlights s)
  /\ (StronglySorted todo_before (todos s) ->
      Forall (fun t => Todo.completed t = false -> Todo.createdAt t < Date_now env)
             (todos s) ->
      forall text color,
        todos (addTodo env text color s)
        = Todo.mk (generateId env) text false color (Date_now env) :: todos s)
  /\ (StronglySorted resource_before (resources s) ->
      Forall (fun r => Resource.createdAt r < Date_now env) (resources s) ->
      forall name type content color,
        resources (addResource env name type content color s)
        = Resource.mk (generateId env) name type content color (Date_now env)
          :: resources s)
  /\ (StronglySorted note_before (ideapadNotes s) ->
      Forall (fun n => IdeapadNote.createdAt n < Date_now env) (ideapadNotes s) ->
      forall text color,
        ideapadNotes (addIdeapadNote env text color s)
        = IdeapadNote.mk (generateId env) text color (Date_now env)
          :: ideapadNotes s).
Proof.
  repeat apply conj; intros Hs Hnew; intros; simpl.
  - apply (sort_snoc_head cmpHighlight highlight_before); [|done|].
    + intros a b. apply cmpHighlight_le.
    + eapply Forall_impl; [exact Hnew|]. intros h Hh.
      unfold cmpHighlight. simpl in *. lia.
  - apply (sort_snoc_head cmpTodo todo_before); [|done|].
    + intros a b. apply cmpTodo_le.
    + eapply Forall_impl; [exact Hnew|]. intros t Ht.
      unfold cmpTodo, num_or, Number_of_bool. simpl.
      destruct (Todo.completed t) eqn:Ec; simpl in *;
        repeat case_decide; try lia.
      specialize (Ht Ec). lia.
  - apply (sort_snoc_head cmpResource resource_before); [|done|].
    + intros a b. apply cmpResource_le.
    + eapply Forall_impl; [exact Hnew|]. intros h Hh.
      unfold cmpResource. simpl in *. lia.
  - apply (sort_snoc_head cmpIdeapadNote note_before); [|done|].
    + intros a b. apply cmpIdeapadNote_le.
    + eapply Forall_impl; [exact Hnew|]. intros h Hh.
      unfold cmpIdeapadNote. simpl in *. lia.
Qed.

(** ** Deleting again *)

Lemma filter_comm {A : Type} (P Q : A -> Prop)
    `{forall a, Decision (P a)} `{forall a, Decision (Q a)} (l : list A) :
  filter P (filter Q l) = filter Q (filter P l).
Proof.
  induction l as [|x l IH]; [reflexivity|].
  rewrite !filter_cons.
  destruct (decide (P x)), (decide (Q x));
    rewrite ?filter_cons, ?decide_True, ?decide_False by done; by rewrite IH.
Qed.

Lemma filter_idemp {A : Type} (P : A -> Prop) `{forall a, Decision (P a)}
    (l : list A) :
  filter P (filter P l) = filter P l.
Proof.
  apply filter_all. rewrite Forall_forall. intros x Hx.
  by apply list_elem_of_filter in Hx as [? _].
Qed.

(** Deletions can be done in any order, and doing one twice is doing it
    once: any two of the five delete operations commute, cascades
    included, and each is idempotent. *)
Theorem deletes_commute (Date_getTime : jsstring -> option Z)
    (env1 env2 : Env) (o1 o2 : Op) (s : App) :
  is_delete o1 = true -> is_delete o2 = true ->
  step Date_getTime env1 o1 (step Date_getTime env2 o2 s)
  = step Date_getTime env2 o2 (step Date_getTime env1 o1 s)
  /\ step Date_getTime env1 o1 (step Date_getTime env2 o1 s)
     = step Date_getTime env1 o1 s.
Proof.
  intros H1 H2. destruct s as [hs ts es rs ns].
  destruct o1; try discriminate H1; destruct o2; try discriminate H2;
    (split; cbv [step deleteHighlight deleteTodo deleteEvent deleteResource
                 deleteIdeapadNote setHighlights setTodos setEvents setResources
                 setIdeapadNotes highlights todos events resources ideapadNotes];
     f_equal; first [reflexivity | apply filter_comm | apply filter_idemp]).
Qed.

(** ** Toggling an id that is not there *)

(** [toggleTodo] with an id no todo has changes no todo: it only applies
    the sort again, so it leaves a state whose todos are in display order
    as it is. *)
Theorem toggleTodo_absent (s : App) (id : jsstring) :
  id ∉ Todo.id <$> todos s ->
  toggleTodo id s = setTodos (sort cmpTodo) s
  /\ (StronglySorted todo_before (todos s) -> toggleTodo id s = s).
Proof.
  intros Hid.
  assert (E : toggled id <$> todos s = todos s).
  { rewrite <- (list_fmap_id (todos s)) at 2. apply list_fmap_ext.
    intros i t Ht. unfold toggled. rewrite decide_False; [done|].
    intros Heq. apply Hid. rewrite <- Heq.
    apply list_elem_of_fmap_2. by eapply list_elem_of_lookup_2. }
  unfold toggleTodo, setTodos. rewrite E. split; [done|].
  intros Hs. rewrite (sort_id cmpTodo todo_before); [by destruct s| |done].
  intros a b. apply cmpTodo_le.
Qed.

(** ** No dangling relation *)

Lemma elem_of_ids_filter {A : Type} (key : A -> jsstring) (id h : jsstring)
    (l : list A) :
  h ∈ key <$> l -> h <> id -> h ∈ key <$> filter (fun a => key a <> id) l.
Proof.
  intros Hh Hne. apply list_elem_of_fmap in Hh as (a & -> & Ha).
  apply list_elem_of_fmap_2. by apply list_elem_of_filter.
Qed.

Lemma elem_of_ids_sort_snoc {A : Type} (key : A -> jsstring) (cmp : A -> A -> Z)
    (h : jsstring) (x : A) (l : list A) :
  h ∈ key <$> l -> h ∈ key <$> sort cmp (l ++ [x]).
Proof.
  intros Hh. rewrite sort_perm, fmap_app, elem_of_app. by left.
Qed.

(** One call keeps the relations of the events bound to entities that
    are there, when an [addEvent] is called with such relations. *)
Lemma step_refs_ok (Date_getTime : jsstring -> option Z) (env : Env) (o : Op) (s : App) :
  refs_ok s -> op_refs_ok s o -> refs_ok (step Date_getTime env o s).
Proof.
  intros Hs Ho e. destruct o; simpl in *.
  - intros He. destruct (Hs e He) as [Hh Hr]. split; [|done].
    intros h Hrel. by apply elem_of_ids_sort_snoc, Hh.
  - intros He. apply list_elem_of_filter in He as [Hne He].
    destruct (Hs e He) as [Hh Hr]. split; [|done].
    intros h Hrel. apply elem_of_ids_filter; [by apply Hh|].
    intros ->. by apply Hne.
  - apply Hs.
  - apply Hs.
  - apply Hs.
  - intros He. rewrite elem_of_sort, elem_of_app, list_elem_of_singleton in He.
    destruct He as [He| ->]; [by apply Hs|]. simpl. exact Ho.
  - intros He. apply list_elem_of_filter in He as [_ He]. by apply Hs.
  - intros He. destruct (Hs e He) as [Hh Hr]. split; [done|].
    intros r Hrel. by apply elem_of_ids_sort_snoc, Hr.
  - intros He. apply list_elem_of_filter in He as [Hne He].
    destruct (Hs e He) as [Hh Hr]. split; [done|].
    intros r Hrel. apply elem_of_ids_filter; [by apply Hr|].
    intros ->. by apply Hne.
  - apply Hs.
  - apply Hs.
Qed.

(** No sequence of calls leaves an event with a relation to an entity
    that is gone: from a state where every relation names a Highlight or
    Resource that is there, with every [addEvent] given relations that
    name entities there at the time of the call, every relation still
    names one afterwards.  (The cascade of [deleteHighlight] and
    [deleteResource] is what keeps it.) *)
Theorem no_dangling_relation (Date_getTime : jsstring -> option Z)
    (calls : list (Env * Op)) (s : App) :
  refs_ok s -> run_refs_ok Date_getTime calls s ->
  refs_ok (run Date_getTime calls s).
Proof.
  unfold run. revert s.
  induction calls as [|[env o] calls IH]; intros s Hs Hc; simpl; [done|].
  destruct Hc as [Ho Hc]. apply IH; [|done]. by apply step_refs_ok.
Qed.

(** ** The submit handlers *)

Lemma blank_false_iff (s : jsstring) : blank s = false <-> ~ whitespace_only s.
Proof.
  rewrite <- blank_iff. destruct (blank s); split; congruence.
Qed.

Ltac by_length proj :=
  let H := fresh in
  intros H; apply (f_equal (fun s => length (proj s))) in H; simpl in H;
  rewrite sort_length, length_app in H; simpl in H; lia.

Lemma addHighlight_changes env text datetime color s :
  addHighlight env text datetime color s <> s.
Proof. by_length highlights. Qed.
Lemma addTodo_changes env text color s : addTodo env text color s <> s.
Proof. by_length todos. Qed.
Lemma addEvent_changes g env title date color time rh rr s :
  addEvent g env title date color time rh rr s <> s.
Proof. by_length events. Qed.
Lemma addResource_changes env name type content color s :
  addResource env name type content color s <> s.
Proof. by_length resources. Qed.
Lemma addIdeapadNote_changes env text color s : addIdeapadNote env text color s <> s.
Proof. by_length ideapadNotes. Qed.

(** When a submit changes the collections: exactly when the text has a
    character that is not whitespace and, for a highlight, the date field
    is a date; for an event, a day is selected; for a resource, the
    content is not blank either; for the quick-write form, the target is
    not the events. *)
Theorem submit_changes_iff (Date_getTime : jsstring -> option Z)
    (Date_toISOString : jsstring -> option jsstring) (env : Env) (s : App) :
  (forall f, (handleAddHighlight Date_toISOString env f s).2 <> s <->
             ~ whitespace_only (newHighlightText f)
             /\ is_Some (Date_toISOString (newHighlightDate f)))
  /\ (forall f, (handleAddTodo env f s).2 <> s <->
                ~ whitespace_only (newTodoText f))
  /\ (forall f, (handleAddEvent Date_getTime env f s).2 <> s <->
                ~ whitespace_only (newEventTitle f)
                /\ exists d, selectedDate f = Some d /\ d <> [])
  /\ (forall f, (handleAddNote env f s).2 <> s <->
                ~ whitespace_only (newNoteText f))
  /\ (forall f, (handleAddResource env f s).2 <> s <->
                ~ whitespace_only (newResourceName f)
                /\ ~ whitespace_only (newResourceContent f))
  /\ (forall f, (handleQuickWriteSubmit env f s).2 <> s <->
                ~ whitespace_only (quickWriteText f)
                /\ quickWriteTarget f <> event).
Proof.
  repeat apply conj; intros f.
  - unfold handleAddHighlight. rewrite <- blank_false_iff.
    destruct (blank (newHighlightText f)); simpl.
    + split; [congruence | intros [? _]; congruence].
    + destruct (Date_toISOString (newHighlightDate f)) as [iso|]; simpl.
      * split; [by eauto | intros _; apply addHighlight_changes].
      * split; [congruence | intros [_ [? ?]]; congruence].
  - unfold handleAddTodo. rewrite <- blank_false_iff.
    destruct (blank (newTodoText f)); simpl.
    + split; congruence.
    + split; [done | intros _; apply addTodo_changes].
  - unfold handleAddEvent. rewrite <- blank_false_iff.
    destruct (blank (newEventTitle f)); simpl.
    + split; [congruence | intros [? _]; congruence].
    + destruct (selectedDate f) as [[|c d]|]; simpl.
      * split; [congruence | intros [_ (d & [= <-] & ?)]; congruence].
      * split; [by eauto | intros _; apply addEvent_changes].
      * split; [congruence | intros [_ (d & ? & _)]; congruence].
  - unfold handleAddNote. rewrite <- blank_false_iff.
    destruct (blank (newNoteText f)); simpl.
    + split; congruence.
    + split; [done | intros _; apply addIdeapadNote_changes].
  - unfold handleAddResource. rewrite <- !blank_false_iff.
    destruct (blank (newResourceName f)), (blank (newResourceContent f)); simpl.
    + split; [congruence | intros [? _]; congruence].
    + split; [congruence | intros [? _]; congruence].
    + split; [congruence | intros [_ ?]; congruence].
    + split; [done | intros _; apply addResource_changes].
  - unfold handleQuickWriteSubmit. rewrite <- blank_false_iff.
    destruct (blank (quickWriteText f)); simpl.
    + split; [congruence | intros [? _]; congruence].
    + destruct (quickWriteTarget f); simpl.
      * split; [done | intros _; apply addHighlight_changes].
      * split; [done | intros _; apply addTodo_changes].
      * split; [congruence | intros [_ ?]; congruence].
      * split; [done | intros _; apply addResource_changes].
      * split; [done | intros _; apply addIdeapadNote_changes].
Qed.

(** The quick-write form never writes the events, and a Resource it
    makes is a note whose content is the whole text and whose name is the
    first thirty code units of it. *)
Theorem quickWrite_resource (env : Env) (f : QuickWrite) (s : App) :
  let s' := (handleQuickWriteSubmit env f s).2 in
  events s' = events s
  /\ forall r, r ∈ resources s' ->
       r ∈ resources s
       \/ (Resource.type r = note
           /\ Resource.content r = quickWriteText f
           /\ Resource.name r = take 30 (quickWriteText f)
           /\ (length (Resource.name r) <= 30)%nat).
Proof.
  unfold handleQuickWriteSubmit.
  destruct (blank (quickWriteText f)); simpl; [by auto|].
  destruct (quickWriteTarget f); simpl; split; auto.
  intros r Hr. rewrite elem_of_sort, elem_of_app, list_elem_of_singleton in Hr.
  destruct Hr as [Hr| ->]; [by left|]. right.
  cbn [Resource.type Resource.content Resource.name]. unfold substring0.
  repeat apply conj; try reflexivity.
  change (length (take 30 (quickWriteText f)) <= 30)%nat.
  rewrite length_take. lia.
Qed.

(** ** The event form *)



(** The time typed into the event form is not used: the event made is
    the same whatever the [time] field holds (its [time] is the clock's). *)
Theorem event_time_field_unused (Date_getTime : jsstring -> option Z)
    (env : Env) (f : EventForm) (value : jsstring) (s : App) :
  (formStep Date_getTime (SubmitEvent env)
            (formStep Date_getTime (TypeTime value) (f, s))).2
  = (formStep Date_getTime (SubmitEvent env) (f, s)).2
  /\ forall e, e ∈ events (formStep Date_getTime (SubmitEvent env) (f, s)).2 ->
       e ∈ events s \/ CalendarEvent.time e = Date_new_valueOf env.
Proof.
  simpl. unfold handleAddEvent. simpl.
  destruct (blank (newEventTitle f)); simpl; [by auto|].
  destruct (selectedDate f) as [d|]; simpl; [|by auto].
  destruct (truthy d); simpl; [|by auto].
  split; [done|]. intros e He.
  rewrite elem_of_sort, elem_of_app, list_elem_of_singleton in He.
  destruct He as [He| ->]; auto.
Qed.

(** ** Calendar days *)

Ltac zdiv := Z.div_mod_to_equations; lia.

Lemma digit_code (k : Z) : 0 <= k <= 9 -> digit (Z.to_N (48 + k)) = Some k.
Proof.
  intros Hk. unfold digit.
  assert (E : (48 <=? Z.to_N (48 + k))%N && (Z.to_N (48 + k) <=? 57)%N = true).
  { apply andb_true_intro. split; apply N.leb_le; lia. }
  rewrite E. f_equal. lia.
Qed.

Lemma Number_toString_4 (y : Z) :
  1000 <= y <= 9999 ->
  Number_toString y =
    [Z.to_N (48 + (y / 10 / 10 / 10) mod 10); Z.to_N (48 + (y / 10 / 10) mod 10);
     Z.to_N (48 + (y / 10) mod 10); Z.to_N (48 + y mod 10)].
Proof.
  intros Hy. unfold Number_toString.
  destruct (Z.ltb_spec y 0) as [?|_]; [lia|].
  destruct (Z.to_nat y) as [|[|[|[|fuel]]]] eqn:E; try lia.
  cbn [digits_of].
  destruct (Z.eqb_spec (y / 10) 0) as [?|_]; [zdiv|].
  destruct (Z.eqb_spec (y / 10 / 10) 0) as [?|_]; [zdiv|].
  destruct (Z.eqb_spec (y / 10 / 10 / 10) 0) as [?|_]; [zdiv|].
  destruct (Z.eqb_spec (y / 10 / 10 / 10 / 10) 0) as [_|?]; [|zdiv].
  reflexivity.
Qed.

Lemma Number_toString_short (y : Z) :
  0 <= y <= 999 -> (length (Number_toString y) <= 3)%nat.
Proof.
  intros Hy. unfold Number_toString.
  destruct (Z.ltb_spec y 0) as [?|_]; [lia|].
  destruct (Z.to_nat y) as [|[|[|fuel]]] eqn:E; cbn [digits_of];
    repeat match goal with
           | |- context [?a =? 0] => destruct (Z.eqb_spec a 0)
           end; simpl; try lia; zdiv.
Qed.

Lemma padStart2_two_digits (n : Z) :
  0 <= n <= 99 ->
  padStart2 (Number_toString n) = [Z.to_N (48 + n / 10); Z.to_N (48 + n mod 10)].
Proof.
  intros Hn. unfold Number_toString.
  destruct (Z.ltb_spec n 0) as [?|_]; [lia|].
  destruct (Z.eqb_spec (n / 10) 0) as [E0|E0].
  - assert (E : digits_of (Z.to_nat n) n [] = [Z.to_N (48 + n mod 10)]).
    { destruct (Z.to_nat n); cbn [digits_of]; [done|].
      rewrite E0. reflexivity. }
    rewrite E, E0. reflexivity.
  - destruct (Z.to_nat n) as [|fuel] eqn:E; [zdiv|].
    cbn [digits_of].
    destruct (Z.eqb_spec (n / 10) 0) as [?|_]; [done|].
    assert (E1 : n / 10 / 10 = 0) by zdiv.
    assert (E2 : (n / 10) mod 10 = n / 10) by zdiv.
    destruct fuel; cbn [digits_of]; rewrite ?E1, E2; reflexivity.
Qed.

Lemma iso_getTime_length (s : jsstring) (t : Z) :
  iso_getTime s = Some t -> length s = 10%nat.
Proof.
  unfold iso_getTime. intros H.
  destruct s as [|c1 [|c2 [|c3 [|c4 [|c5 [|c6 [|c7 [|c8 [|c9 [|c10 [|c11 s]]]]]]]]]]];
    try discriminate H; try reflexivity; exfalso;
    repeat match type of H with
           | context [match ?n with _ => _ end] =>
               destruct n; try discriminate H
           end.
Qed.

Lemma formatDate_iso (y m d : Z) :
  1000 <= y <= 9999 -> 0 <= m <= 11 -> 1 <= d <= days_in_month y (m + 1) ->
  iso_getTime (formatDateYYYYMMDD (mkJsDate y m d))
  = Some (days_from_civil y (m + 1) d * 86400000).
Proof.
  intros Hy Hm Hd.
  assert (Hdim : days_in_month y (m + 1) <= 31).
  { unfold days_in_month.
    repeat match goal with |- context [if ?b then _ else _] => destruct b end; lia. }
  unfold formatDateYYYYMMDD. simpl.
  rewrite (padStart2_two_digits (m + 1)), (padStart2_two_digits d) by lia.
  rewrite Number_toString_4 by done.
  unfold iso_getTime. cbv beta iota fix delta [Datatypes.app].
  rewrite !digit_code by zdiv. cbn [mbind option_bind].
  replace (1000 * ((y / 10 / 10 / 10) mod 10) + 100 * ((y / 10 / 10) mod 10)
           + 10 * ((y / 10) mod 10) + y mod 10) with y by zdiv.
  replace (10 * ((m + 1) / 10) + (m + 1) mod 10) with (m + 1) by zdiv.
  replace (10 * (d / 10) + d mod 10) with d by zdiv.
  assert (E : (1 <=? m + 1) && (m + 1 <=? 12) && (1 <=? d)
              && (d <=? days_in_month y (m + 1)) = true).
  { repeat (apply andb_true_intro; split); apply Z.leb_le; lia. }
  by rewrite E.
Qed.

(** The key of a day of the calendar reads back as that day: for a year
    of four digits, [formatDateYYYYMMDD] gives ten code units that the
    date-only form accepts, with the time of that day's midnight; for a
    year below 1000 it gives fewer, which is not the date-only form. *)
Theorem formatDate_parses (date : JsDate) :
  0 <= getMonth date <= 11 ->
  1 <= getDate date <= days_in_month (getFullYear date) (getMonth date + 1) ->
  (1000 <= getFullYear date <= 9999 ->
   iso_getTime (formatDateYYYYMMDD date)
   = Some (days_from_civil (getFullYear date) (getMonth date + 1) (getDate date)
           * 86400000))
  /\ (0 <= getFullYear date <= 999 ->
      iso_getTime (formatDateYYYYMMDD date) = None).
Proof.
  destruct date as [y m d]. simpl. intros Hm Hd.
  split; intros Hy.
  - by apply formatDate_iso.
  - assert (Hdim : days_in_month y (m + 1) <= 31).
    { unfold days_in_month.
      repeat match goal with |- context [if ?b then _ else _] => destruct b end; lia. }
    unfold formatDateYYYYMMDD. simpl.
    rewrite (padStart2_two_digits (m + 1)), (padStart2_two_digits d) by lia.
    destruct (iso_getTime _) as [t|] eqn:E; [|done].
    apply iso_getTime_length in E.
    pose proof (Number_toString_short y Hy) as Hlen.
    rewrite !length_app in E. simpl in E. lia.
Qed.

Lemma days_in_month_bounds (y m : Z) : 28 <= days_in_month y m <= 31.
Proof.
  unfold days_in_month.
  repeat match goal with |- context [if ?b then _ else _] => destruct b end; lia.
Qed.

(** Where local time is UTC the calendar of every month is whole. *)
Lemma nextDay_UTC_whole_month (year month : Z) :
  0 <= month <= 11 -> whole_month nextDay_UTC year month.
Proof.
  intros Hm d Hd. unfold nextDay_UTC. cbn [getDate getFullYear getMonth].
  destruct (Z.ltb_spec d (days_in_month year (month + 1))); [reflexivity|].
  destruct (Z.ltb_spec month 11); cbn [getMonth]; lia.
Qed.

(** Whatever the time zone, the loop only collects days of the month. *)
Lemma daysLoop_month (Date_setDate_next : JsDate -> JsDate) (month : Z) (fuel : nat) :
  forall (date : JsDate) (days : list JsDate),
    Forall (fun d => getMonth d = month) days ->
    Forall (fun d => getMonth d = month)
           (daysLoop Date_setDate_next fuel month date days).
Proof.
  induction fuel as [|fuel IH]; intros date days Hdays; [done|].
  cbn [daysLoop]. destruct (Z.eqb_spec (getMonth date) month) as [E|_]; [|done].
  apply IH. apply Forall_app. split; [done|]. by constructor.
Qed.

(** The loop, started inside a whole month, collects the days up to the
    last and stops. *)
Lemma daysLoop_from (Date_setDate_next : JsDate -> JsDate) (y m : Z) (n : nat) :
  whole_month Date_setDate_next y m ->
  forall (k : Z) (acc : list JsDate) (fuel : nat),
    1 <= k -> n = Z.to_nat (days_in_month y (m + 1) - k) ->
    k <= days_in_month y (m + 1) ->
    (n + 2 <= fuel)%nat ->
    daysLoop Date_setDate_next fuel m (mkJsDate y m k) acc
    = acc ++ (mkJsDate y m <$> seqZ k (days_in_month y (m + 1) - k + 1)).
Proof.
  intros Hw. induction n as [|n IH]; intros k acc fuel Hk Hn Hle Hfuel.
  - assert (k = days_in_month y (m + 1)) as Ek by lia.
    destruct fuel as [|[|fuel]]; try lia.
    cbn [daysLoop getMonth]. rewrite Z.eqb_refl.
    pose proof (Hw k (conj Hk Hle)) as Hlast.
    destruct (Z.ltb_spec k (days_in_month y (m + 1))) as [?|_]; [lia|].
    destruct (Z.eqb_spec (getMonth (Date_setDate_next (mkJsDate y m k))) m);
      [done|].
    replace (days_in_month y (m + 1) - k + 1) with 1 by lia.
    reflexivity.
  - destruct fuel as [|fuel]; [lia|].
    cbn [daysLoop getMonth]. rewrite Z.eqb_refl.
    pose proof (Hw k (conj Hk Hle)) as Hnext.
    destruct (Z.ltb_spec k (days_in_month y (m + 1))) as [_|?]; [|lia].
    rewrite Hnext, (IH (k + 1)) by lia.
    rewrite <- app_assoc. f_equal.
    rewrite (seqZ_cons k) by lia. simpl. do 2 f_equal.
    f_equal; lia.
Qed.

(** [date.setDate] works in local time, so the days [getDaysInMonth]
    gives depend on the time zone.  Whatever the zone, every day it gives
    is a day of the month asked for, and a month outside 0 to 11 gives no
    day at all.  For a month from 0 to 11 of a year in the range of
    [Date] (a year from 0 to 99 standing for 1900 + year), in a zone
    whose local calendar has every day of that month, it gives every day
    of the month once and in order, from the first to the last (28 to 31
    of them), and the loop ends within its 32 tests. *)
Theorem getDaysInMonth_all_days (Date_setDate_next : JsDate -> JsDate)
    (fuel : nat) (year month : Z) :
  (32 <= fuel)%nat ->
  let yr := if (0 <=? year) && (year <=? 99) then 1900 + year else year in
  let days := getDaysInMonth_fuel Date_setDate_next fuel year month in
  (0 <= month <= 11 -> Date_range yr -> whole_month Date_setDate_next yr month ->
   days = mkJsDate yr month <$> seqZ 1 (days_in_month yr (month + 1)))
  /\ (~ 0 <= month <= 11 -> days = [])
  /\ Forall (fun d => getMonth d = month) days.
Proof.
  intros Hfuel yr days. subst days. unfold getDaysInMonth_fuel, Date_first. fold yr.
  repeat apply conj.
  - intros Hm _ Hw.
    replace (month / 12) with 0 by zdiv.
    replace (month mod 12) with month by zdiv.
    rewrite Z.add_0_r.
    pose proof (days_in_month_bounds yr (month + 1)) as Hb.
    rewrite (daysLoop_from Date_setDate_next yr month
               (Z.to_nat (days_in_month yr (month + 1) - 1)))
      by (try done; lia).
    simpl. do 2 f_equal. lia.
  - intros Hm. destruct fuel as [|fuel]; [lia|]. cbn [daysLoop getMonth].
    destruct (Z.eqb_spec (month mod 12) month) as [E|_]; [|done].
    exfalso. apply Hm. zdiv.
  - apply daysLoop_month. constructor.
Qed.

(** ** Changing the month *)

(** [changeMonth delta] lands on the first day of the month that is
    [delta] months away (a month in the range of [Date]), whatever the
    day it starts from, and clears the selected day; from a year 0 to 99
    it lands 1900 years later. *)
Theorem changeMonth_moves (delta : Z) (c : Calendar) :
  let d := currentMonthDate c in
  let d' := currentMonthDate (changeMonth delta c) in
  Date_range (getFullYear d') ->
  getDate d' = 1
  /\ 0 <= getMonth d' <= 11
  /\ selectedDate (eventForm (changeMonth delta c)) = None
  /\ (~ 0 <= getFullYear d <= 99 -> month_index d' = month_index d + delta)
  /\ (0 <= getFullYear d <= 99 ->
      month_index d' = month_index d + delta + 12 * 1900).
Proof.
  simpl. intros _. unfold month_index, Date_first. simpl.
  repeat apply conj; try done; try zdiv.
  - intros Hy.
    destruct (Z.leb_spec 0 (getFullYear (currentMonthDate c)));
      destruct (Z.leb_spec (getFullYear (currentMonthDate c)) 99);
      simpl; try lia; zdiv.
  - intros Hy.
    destruct (Z.leb_spec 0 (getFullYear (currentMonthDate c)));
      destruct (Z.leb_spec (getFullYear (currentMonthDate c)) 99);
      simpl; try lia; zdiv.
Qed.

(** Going [delta] months away and [delta] months back shows the month
    one started from, when neither year is one from 0 to 99 and the month
    in between is in the range of [Date]. *)
Theorem changeMonth_back (delta : Z) (c : Calendar) :
  let d := currentMonthDate c in
  0 <= getMonth d <= 11 ->
  ~ 0 <= getFullYear d <= 99 ->
  ~ 0 <= getFullYear d + (getMonth d + delta) / 12 <= 99 ->
  Date_range (getFullYear d + (getMonth d + delta) / 12) ->
  currentMonthDate (changeMonth (- delta) (changeMonth delta c))
  = mkJsDate (getFullYear d) (getMonth d) 1.
Proof.
  simpl. intros Hm Hy Hy' _. unfold Date_first. simpl.
  destruct (Z.leb_spec 0 (getFullYear (currentMonthDate c)));
    destruct (Z.leb_spec (getFullYear (currentMonthDate c)) 99);
    simpl; try lia;
    destruct (Z.leb_spec 0 (getFullYear (currentMonthDate c)
                            + (getMonth (currentMonthDate c) + delta) / 12));
    destruct (Z.leb_spec (getFullYear (currentMonthDate c)
                          + (getMonth (currentMonthDate c) + delta) / 12) 99);
    simpl; try lia; f_equal; zdiv.
Qed.

(** ** Grouping by day *)

Section GroupFacts.
Variable inherited : jsstring -> bool.
Context {A : Type} (key : A -> jsstring).

Lemma group_fold_None (l : list A) :
  foldl (fun acc x => acc ≫= fun m => group_push inherited key m x) None l = None.
Proof. induction l as [|x l IH]; [done|]. exact IH. Qed.

Lemma group_fold_Some (l : list A) (m0 : gmap jsstring (list A)) :
  Forall (fun x => inherited (key x) = false) l ->
  exists m,
    foldl (fun acc x => acc ≫= fun m => group_push inherited key m x) (Some m0) l
    = Some m
    /\ forall d, onDay m d = onDay m0 d ++ filter (fun x => key x = d) l.
Proof.
  intros Hl. revert m0. induction Hl as [|x l Hx Hl IH]; intros m0.
  - exists m0. split; [done|]. intros d. by rewrite filter_nil, app_nil_r.
  - simpl. unfold group_push at 2. rewrite Hx.
    destruct (IH (<[key x := default [] (m0 !! key x) ++ [x]]> m0))
      as (m & Hm & Hlook).
    exists m. split; [exact Hm|]. intros d. rewrite Hlook.
    unfold onDay. rewrite lookup_insert, filter_cons.
    destruct (decide (key x = d)) as [->|Hne]; simpl.
    + by rewrite <- app_assoc.
    + done.
Qed.

Lemma group_fold_throws (l : list A) (m0 : gmap jsstring (list A)) :
  Exists (fun x => inherited (key x) = true) l ->
  foldl (fun acc x => acc ≫= fun m => group_push inherited key m x) (Some m0) l
  = None.
Proof.
  intros Hl. revert m0. induction Hl as [x l Hx|x l Hl IH]; intros m0; simpl.
  - unfold group_push at 2. rewrite Hx. apply group_fold_None.
  - unfold group_push at 2. destruct (inherited (key x)).
    + apply group_fold_None.
    + apply IH.
Qed.
End GroupFacts.

(** The events of a day cell are the events with that [date], in the
    order of the collection, and the highlights of a day cell are those
    whose [datetime] starts with that day (up to the first [T]); an event
    or highlight is in no other cell.  A key that is a property name
    every object inherits makes the grouping throw. *)
Theorem byDate_lookup (inherited : jsstring -> bool)
    (es : list CalendarEvent.t) (hs : list Highlight.t) :
  (Forall (fun e => inherited (CalendarEvent.date e) = false) es ->
   exists m, eventsByDate inherited es = Some m
             /\ forall d, onDay m d = filter (fun e => CalendarEvent.date e = d) es)
  /\ (Forall (fun h => inherited (before_T (Highlight.datetime h)) = false) hs ->
      exists m, highlightsByDate inherited hs = Some m
                /\ forall d, onDay m d
                             = filter (fun h => before_T (Highlight.datetime h) = d) hs)
  /\ (Exists (fun e => inherited (CalendarEvent.date e) = true) es ->
      eventsByDate inherited es = None)
  /\ (Exists (fun h => inherited (before_T (Highlight.datetime h)) = true) hs ->
      highlightsByDate inherited hs = None).
Proof.
  unfold eventsByDate, highlightsByDate, groupByKey.
  repeat apply conj; intros H.
  - destruct (group_fold_Some inherited CalendarEvent.date es ∅ H) as (m & Hm & Hl).
    exists m. split; [done|]. intros d. rewrite Hl. unfold onDay.
    by rewrite lookup_empty.
  - destruct (group_fold_Some inherited
                (fun h => before_T (Highlight.datetime h)) hs ∅ H) as (m & Hm & Hl).
    exists m. split; [done|]. intros d. rewrite Hl. unfold onDay.
    by rewrite lookup_empty.
  - by apply group_fold_throws.
  - by apply group_fold_throws.
Qed.

(** ** Dashboard *)

Lemma sorted_take_drop {A : Type} (R : relation A) (n : nat) (l : list A) :
  StronglySorted R l ->
  forall x y, x ∈ take n l -> y ∈ drop n l -> R x y.
Proof.
  intros Hl x y Hx Hy. rewrite <- (take_drop n l) in Hl.
  by eapply StronglySorted_app_1_elem_of.
Qed.

(** The dashboard shows the newest highlights: at most three, and, the
    highlights being newest first, no highlight left out is newer than
    one that is shown. *)
Theorem dashboard_highlights_newest (s : App) :
  StronglySorted highlight_before (highlights s) ->
  length (dashboardHighlights s) = (length (highlights s) `min` 3)%nat
  /\ forall x y, x ∈ dashboardHighlights s -> y ∈ drop 3 (highlights s) ->
                 Highlight.createdAt y <= Highlight.createdAt x.
Proof.
  intros Hs. unfold dashboardHighlights. split.
  - rewrite length_take. lia.
  - intros x y Hx Hy. by apply (sorted_take_drop highlight_before 3 _ Hs).
Qed.

(** Todos in display order are the incomplete ones followed by the
    completed ones. *)
Lemma sorted_todos_split (l : list Todo.t) :
  StronglySorted todo_before l ->
  l = filter (fun t => Todo.completed t = false) l
      ++ filter (fun t => Todo.completed t = true) l.
Proof.
  induction l as [|x l IH]; intros Hl; [reflexivity|].
  apply StronglySorted_cons in Hl as [Hx Hl].
  rewrite !filter_cons. destruct (Todo.completed x) eqn:Ex.
  - rewrite decide_False, decide_True by done.
    assert (Hall : Forall (fun t => Todo.completed t = true) l).
    { eapply Forall_impl; [exact Hx|]. intros y Hy. unfold todo_before in Hy.
      rewrite Ex in Hy. destruct Hy as [[? _]|[<- _]]; congruence. }
    rewrite (filter_all _ l Hall).
    replace (filter (fun t => Todo.completed t = false) l) with (@nil Todo.t);
      [reflexivity|].
    symmetry. clear -Hall. induction Hall as [|y l Hy _ IHl]; [reflexivity|].
    rewrite filter_cons, decide_False by congruence. exact IHl.
  - rewrite decide_True, decide_False by done. simpl. f_equal. by apply IH.
Qed.

(** The dashboard shows only incomplete todos, at most three of them
    and the newest: with the todos in display order, the incomplete ones
    are a prefix of the collection, and none that is left out is newer
    than one that is shown. *)
Theorem dashboard_todos_pending (s : App) :
  (forall t, t ∈ dashboardTodos s -> Todo.completed t = false /\ t ∈ todos s)
  /\ (length (dashboardTodos s) <= 3)%nat
  /\ (StronglySorted todo_before (todos s) ->
      todos s = filter (fun t => Todo.completed t = false) (todos s)
                ++ filter (fun t => Todo.completed t = true) (todos s)
      /\ forall x y,
           x ∈ dashboardTodos s ->
           y ∈ drop 3 (filter (fun t => Todo.completed t = false) (todos s)) ->
           Todo.createdAt y <= Todo.createdAt x).
Proof.
  unfold dashboardTodos. repeat apply conj.
  - intros t Ht. apply subseteq_take in Ht.
    by apply list_elem_of_filter in Ht.
  - rewrite length_take. lia.
  - intros Hs. split; [by apply sorted_todos_split|].
    intros x y Hx Hy.
    assert (Hf : StronglySorted todo_before
                   (filter (fun t => Todo.completed t = false) (todos s)))
      by (by apply filter_sorted).
    pose proof (sorted_take_drop todo_before 3 _ Hf x y Hx Hy) as Hxy.
    apply subseteq_take, list_elem_of_filter in Hx as [Hx _].
    apply subseteq_drop, list_elem_of_filter in Hy as [Hy _].
    unfold todo_before in Hxy. destruct Hxy as [[_ ?]|[_ ?]]; [congruence|done].
Qed.

(** The dashboard shows only events of today or later: an event with a
    date before today, or with a date (or a today) the engine does not
    read as a date, is never shown; and, the events being in display
    order, those shown are the earliest of the coming ones, in display
    order themselves. *)
Theorem dashboard_events_upcoming (Date_getTime : jsstring -> option Z)
    (today : jsstring) (s : App) :
  (forall e, e ∈ dashboardEvents Date_getTime today s ->
     e ∈ events s
     /\ exists t t0, Date_getTime (CalendarEvent.date e) = Some t
                     /\ Date_getTime today = Some t0 /\ t0 <= t)
  /\ (length (dashboardEvents Date_getTime today s) <= 3)%nat
  /\ (StronglySorted (event_before Date_getTime) (events s) ->
      StronglySorted (event_before Date_getTime) (dashboardEvents Date_getTime today s)
      /\ forall x y,
           x ∈ dashboardEvents Date_getTime today s ->
           y ∈ drop 3 (filter (fun e => upcoming Date_getTime today e = true)
                              (events s)) ->
           event_before Date_getTime x y).
Proof.
  unfold dashboardEvents. repeat apply conj.
  - intros e He. apply subseteq_take, list_elem_of_filter in He as [Hup He].
    split; [done|]. unfold upcoming, date_ge in Hup.
    destruct (Date_getTime (CalendarEvent.date e)) as [t|]; [|done].
    destruct (Date_getTime today) as [t0|]; [|done].
    exists t, t0. repeat split. by apply Z.leb_le.
  - rewrite length_take. lia.
  - intros Hs.
    assert (Hf : StronglySorted (event_before Date_getTime)
                   (filter (fun e => upcoming Date_getTime today e = true) (events s)))
      by (by apply filter_sorted).
    split.
    + rewrite <- (take_drop 3) in Hf. by apply StronglySorted_app_1_l in Hf.
    + intros x y Hx Hy.
      by apply (sorted_take_drop (event_before Date_getTime) 3 _ Hf).
Qed.

(** ** Saving *)

Section SaveFacts.
Variable accepts : Storage -> jsstring -> jsstring -> bool.


End SaveFacts.


(** What is saved is what is loaded: after a [saveData] whose five
    writes the store accepts, the load effect gives back the five
    collections as they were saved, when [JSON.parse] reads what
    [JSON.stringify] wrote (a text that is never empty). *)
Theorem save_then_load
    (parseHighlights : jsstring -> option (list Highlight.t))
    (parseTodos : jsstring -> option (list Todo.t))
    (parseEvents : jsstring -> option (list CalendarEvent.t))
    (parseResources : jsstring -> option (list Resource.t))
    (parseIdeapadNotes : jsstring -> option (list IdeapadNote.t))
    (stringifyHighlights : list Highlight.t -> jsstring)
    (stringifyTodos : list Todo.t -> jsstring)
    (stringifyEvents : list CalendarEvent.t -> jsstring)
    (stringifyResources : list Resource.t -> jsstring)
    (stringifyIdeapadNotes : list IdeapadNote.t -> jsstring)
    (accepts : Storage -> jsstring -> jsstring -> bool)
    (st st0 : NoteAppState) (ls : Storage) :
  isLoading st = false ->
  (forall ls' key value, accepts ls' key value = true) ->
  (stringifyHighlights (highlights (collections st)) <> []
   /\ parseHighlights (stringifyHighlights (highlights (collections st)))
      = Some (highlights (collections st))) ->
  (stringifyTodos (todos (collections st)) <> []
   /\ parseTodos (stringifyTodos (todos (collections st)))
      = Some (todos (collections st))) ->
  (stringifyEvents (events (collections st)) <> []
   /\ parseEvents (stringifyEvents (events (collections st)))
      = Some (events (collections st))) ->
  (stringifyResources (resources (collections st)) <> []
   /\ parseResources (stringifyResources (resources (collections st)))
      = Some (resources (collections st))) ->
  (stringifyIdeapadNotes (ideapadNotes (collections st)) <> []
   /\ parseIdeapadNotes (stringifyIdeapadNotes (ideapadNotes (collections st)))
      = Some (ideapadNotes (collections st))) ->
  loadEffect parseHighlights parseTodos parseEvents parseResources
             parseIdeapadNotes
             (saveData stringifyHighlights stringifyTodos stringifyEvents
                       stringifyResources stringifyIdeapadNotes accepts st ls)
             st0
  = mkNoteAppState (collections st) false.
Proof.
  intros Hload Hacc [Th Ph] [Tt Pt] [Te Pe] [Tr Pr] [Tn Pn].
  unfold loadEffect, load. rewrite load_try_cases.
  unfold load_throws, saveData. rewrite Hload.
  cbn [setItems]. unfold setItem. rewrite !Hacc.
  assert (Htruthy : forall d : jsstring, d <> [] -> truthy d = true)
    by (by intros [|??]).
  replace (if decide (key_highlights = key_ideapadNotes) then _ else _)
    with (Item (stringifyHighlights (highlights (collections st))))
    by (by vm_compute).
  replace (if decide (key_todos = key_ideapadNotes) then _ else _)
    with (Item (stringifyTodos (todos (collections st)))) by (by vm_compute).
  replace (if decide (key_events = key_ideapadNotes) then _ else _)
    with (Item (stringifyEvents (events (collections st)))) by (by vm_compute).
  replace (if decide (key_resources = key_ideapadNotes) then _ else _)
    with (Item (stringifyResources (resources (collections st)))) by (by vm_compute).
  replace (if decide (key_ideapadNotes = key_ideapadNotes) then _ else _)
    with (Item (stringifyIdeapadNotes (ideapadNotes (collections st))))
    by (by vm_compute).
  unfold throws, hydrated.
  rewrite !Htruthy, Ph, Pt, Pe, Pr, Pn by done. simpl.
  by destruct (collections st).
Qed.

(** ** Importing several files *)

Section ImportFacts.
Context {FileData : Type}.
Variable JSON_parse : jsstring -> option FileData.
Variable onImport : FileData -> App -> Completion App.

Lemma handleImport_imported (file : FileRead) (c : Import FileData) :
  imported (handleImport JSON_parse onImport file c)
  = match parsed JSON_parse file with
    | Some d => d :: imported c
    | None => imported c
    end.
Proof.
  destruct file as [[text|]|]; simpl; try done.
  destruct (JSON_parse text) as [d|]; simpl; [|done].
  by destruct (onImport d (app c)).
Qed.

Lemma handleImport_app (file : FileRead) (c : Import FileData) :
  parsed JSON_parse file = None ->
  app (handleImport JSON_parse onImport file c) = app c.
Proof.
  destruct file as [[text|]|]; simpl; try done.
  by intros ->.
Qed.

(** Of the files imported one after the other, exactly those whose text
    parses reach [onImport], each once and in their order; if none
    parses the collections stay as they were; and a drop or a selection
    of several files imports the first one only (a drop always ends the
    highlighting of the drop zone). *)
Theorem import_log (files : list FileRead) (c : Import FileData) (active : bool) :
  imported (importAll JSON_parse onImport files c)
  = reverse (omap (parsed JSON_parse) files) ++ imported c
  /\ (Forall (fun file => parsed JSON_parse file = None) files ->
      app (importAll JSON_parse onImport files c) = app c)
  /\ handleDrop JSON_parse onImport files (active, c)
     = (false, importAll JSON_parse onImport (take 1 files) c)
  /\ handleFileChange JSON_parse onImport files c
     = importAll JSON_parse onImport (take 1 files) c.
Proof.
  repeat apply conj.
  - unfold importAll. revert c.
    induction files as [|file files IH]; intros c; simpl; [done|].
    rewrite IH, handleImport_imported.
    destruct (parsed JSON_parse file) as [d|]; [|done].
    rewrite reverse_cons, <- app_assoc. done.
  - unfold importAll. intros Hall. revert c.
    induction Hall as [|file files Hf _ IH]; intros c; simpl; [done|].
    rewrite IH. by apply handleImport_app.
  - by destruct files.
  - by destruct files.
Qed.
End ImportFacts.

(** ** Colours *)

Lemma indexOf_from_absent (i : Z) (x : jsstring) (arr : list jsstring) :
  x ∉ arr -> indexOf_from i x arr = -1.
Proof.
  revert i. induction arr as [|y arr IH]; intros i Hx; simpl; [done|].
  apply not_elem_of_cons in Hx as [Hne Hx].
  rewrite decide_False by done. by apply IH.
Qed.

(** The text colour of an item is found exactly for the eight colours of
    the picker, and is then the text colour at the same position; for any
    other colour the lookup gives [undefined], and the popup falls back
    to the gray text. *)
Theorem textColor_defined (color : jsstring) :
  (is_Some (textColor color) <-> color ∈ COLORS)
  /\ (forall i, COLORS !! i = Some color -> textColor color = TEXT_COLORS !! i)
  /\ (color ∉ COLORS ->
      textColor color = None /\ popupTextColor color = js "text-gray-800").
Proof.
  assert (Habsent : color ∉ COLORS -> textColor color = None).
  { intros Hc. unfold textColor, indexOf. by rewrite indexOf_from_absent. }
  assert (Hpos : forall i, COLORS !! i = Some color ->
                           textColor color = TEXT_COLORS !! i).
  { intros i Hi.
    do 8 (destruct i as [|i]; [injection Hi as <-; reflexivity|]).
    discriminate Hi. }
  repeat apply conj.
  - intros Hsome. destruct (decide (color ∈ COLORS)) as [|Hc]; [done|].
    rewrite (Habsent Hc) in Hsome. by destruct Hsome.
  - intros Hc. apply list_elem_of_lookup_1 in Hc as [i Hi].
    rewrite (Hpos i Hi). apply lookup_lt_is_Some.
    apply lookup_lt_Some in Hi. exact Hi.
  - exact Hpos.
  - intros Hc. split; [by apply Habsent|].
    unfold popupTextColor. destruct color as [|c color]; simpl.
    + reflexivity.
    + by rewrite (Habsent Hc).
Qed.

(** ** The month grid *)

(** The cells of a month of a year of four digits, in a time zone whose
    local calendar has every day of that month: [getDaysInMonth] gives as
    many days as the month has, and their keys ([formatDateYYYYMMDD]) are
    dates of the date-only form, one for each day from the first to the
    last, so no two cells share a key. *)
Theorem month_grid_keys (Date_setDate_next : JsDate -> JsDate) (year month : Z) :
  1000 <= year <= 9999 -> 0 <= month <= 11 ->
  whole_month Date_setDate_next year month ->
  let keys := formatDateYYYYMMDD <$> getDaysInMonth Date_setDate_next year month in
  length keys = Z.to_nat (days_in_month year (month + 1))
  /\ iso_getTime <$> keys
     = (fun d => Some (days_from_civil year (month + 1) d * 86400000))
       <$> seqZ 1 (days_in_month year (month + 1))
  /\ NoDup keys.
Proof.
  intros Hy Hm Hw keys.
  pose proof (days_in_month_bounds year (month + 1)) as Hb.
  assert (Hdays : getDaysInMonth Date_setDate_next year month
                  = mkJsDate year month <$> seqZ 1 (days_in_month year (month + 1))).
  { unfold getDaysInMonth, getDaysInMonth_fuel, Date_first.
    assert (E : (0 <=? year) && (year <=? 99) = false).
    { apply andb_false_intro2. apply Z.leb_gt. lia. }
    rewrite E.
    replace (month / 12) with 0 by zdiv.
    replace (month mod 12) with month by zdiv.
    rewrite Z.add_0_r.
    rewrite (daysLoop_from Date_setDate_next year month
               (Z.to_nat (days_in_month year (month + 1) - 1)))
      by (try assumption; lia).
    rewrite app_nil_l. do 2 f_equal. lia. }
  assert (Htimes : iso_getTime <$> keys
     = (fun d => Some (days_from_civil year (month + 1) d * 86400000))
       <$> seqZ 1 (days_in_month year (month + 1))).
  { unfold keys. rewrite Hdays, <- !list_fmap_compose.
    apply list_fmap_ext. intros i d Hd. simpl.
    apply list_elem_of_lookup_2, elem_of_seqZ in Hd.
    apply formatDate_iso; lia. }
  repeat apply conj.
  - unfold keys. rewrite Hdays, !length_fmap, length_seqZ. done.
  - exact Htimes.
  - apply (NoDup_fmap_1 iso_getTime). rewrite Htimes.
    apply NoDup_fmap_2_strong; [|apply NoDup_seqZ].
    intros d1 d2 _ _ [= E]. unfold days_from_civil in E. lia.
Qed.

(** * The further properties at concrete inputs *)

Ltac order_eval :=
  match goal with
  | |- StronglySorted _ ?l =>
      let l' := eval vm_compute in l in
      replace l with l' by (vm_compute; reflexivity)
  end;
  repeat constructor;
  vm_compute; first [done | by left | by right].

(** A highlight and a todo added at time 3000 to a state whose entities
    were created at 1000 and 2000. *)
Lemma add_newest_first_witness :
  highlights (addHighlight env_3 (js "x") (js "2024-05-01T08:00:00.000Z")
                           (js "bg-red-200") app_small)
    = Highlight.mk (js "lx1c3z") (js "x") (js "2024-05-01T08:00:00.000Z")
                   (js "bg-red-200") 3000 :: highlights app_small
  /\ todos (addTodo env_3 (js "x") (js "bg-red-200") app_small)
     = Todo.mk (js "lx1c3z") (js "x") false (js "bg-red-200") 3000
       :: todos app_small
  /\ resources (addResource env_3 (js "x") link (js "y") (js "bg-red-200") app_small)
     = Resource.mk (js "lx1c3z") (js "x") link (js "y") (js "bg-red-200") 3000
       :: resources app_small
  /\ ideapadNotes (addIdeapadNote env_3 (js "x") (js "bg-red-200") app_small)
     = IdeapadNote.mk (js "lx1c3z") (js "x") (js "bg-red-200") 3000
       :: ideapadNotes app_small.
Proof.
  destruct (add_newest_first env_3 app_small) as (Hh & Ht & Hr & Hn).
  repeat apply conj.
  - apply Hh; vm_compute; repeat constructor.
  - apply Ht; vm_compute; repeat constructor.
  - apply Hr; vm_compute; repeat constructor.
  - apply Hn; vm_compute; repeat constructor.
Defined.

(** Deleting the highlight [h1] (which is absent but referred to) and
    the event, in either order. *)
Lemma deletes_commute_witness :
  deleteHighlight (js "h1") (deleteEvent (js "zz") app_dangling)
  = deleteEvent (js "zz") (deleteHighlight (js "h1") app_dangling)
  /\ deleteHighlight (js "h1") (deleteHighlight (js "h1") app_dangling)
     = deleteHighlight (js "h1") app_dangling.
Proof.
  apply (deletes_commute iso_getTime env_1 env_2 (DeleteHighlight (js "h1"))
           (DeleteEvent (js "zz")) app_dangling); reflexivity.
Defined.

Lemma toggleTodo_absent_witness : toggleTodo (js "zz") app_small = app_small.
Proof.
  apply (toggleTodo_absent app_small (js "zz")).
  - by_evaluation.
  - vm_compute. repeat constructor.
Defined.

(** The seven calls of [calls_example]: the event added third refers to
    the highlight added first, which the last call deletes. *)
Lemma no_dangling_relation_witness :
  refs_ok (run iso_getTime calls_example initial).
Proof.
  apply (no_dangling_relation iso_getTime calls_example initial).
  - intros e He. vm_compute in He. by apply not_elem_of_nil in He.
  - simpl. repeat apply conj; try exact I; try discriminate.
    intros h [= <-]. by_evaluation.
Defined.

(** Quick-writing the indented text as a resource. *)
Lemma quickWrite_resource_witness :
  events (handleQuickWriteSubmit env_1
            (mkQuickWrite text_indented resource (js "bg-red-200")) initial).2
  = []
  /\ Forall (fun r => Resource.type r = note /\ (length (Resource.name r) <= 30)%nat)
       (resources (handleQuickWriteSubmit env_1
                     (mkQuickWrite text_indented resource (js "bg-red-200"))
                     initial).2).
Proof.
  destruct (quickWrite_resource env_1
              (mkQuickWrite text_indented resource (js "bg-red-200")) initial)
    as [He Hr].
  split; [exact He|].
  rewrite Forall_forall. intros r Hin.
  destruct (Hr r Hin) as [Hold|(Ht & _ & _ & Hl)].
  - vm_compute in Hold. by apply not_elem_of_nil in Hold.
  - by split.
Defined.


(** The first of May 2024, and the first of May 999. *)
Lemma formatDate_parses_witness :
  iso_getTime (formatDateYYYYMMDD (mkJsDate 2024 4 1)) = Some 1714521600000
  /\ iso_getTime (formatDateYYYYMMDD (mkJsDate 999 4 1)) = None.
Proof.
  split.
  - apply (formatDate_parses (mkJsDate 2024 4 1)); vm_compute;
      split; discriminate.
  - apply (formatDate_parses (mkJsDate 999 4 1)); vm_compute;
      split; discriminate.
Defined.

(** Where local time is UTC February 2024 has 29 days; month 12 gives
    none. *)
Lemma getDaysInMonth_all_days_witness :
  getDaysInMonth nextDay_UTC 2024 1 = mkJsDate 2024 1 <$> seqZ 1 29
  /\ getDaysInMonth nextDay_UTC 2024 12 = [].
Proof.
  split.
  - apply (getDaysInMonth_all_days nextDay_UTC 32 2024 1); [lia|lia| |].
    + unfold Date_range. simpl. lia.
    + apply nextDay_UTC_whole_month. lia.
  - apply (getDaysInMonth_all_days nextDay_UTC 32 2024 12); lia.
Defined.

(** In a zone without 30 December 2011 the month has 30 cells, and none
    for that day. *)
Lemma getDaysInMonth_skipped_day :
  getDaysInMonth (nextDay_skipping (mkJsDate 2011 11 30)) 2011 11
  = (mkJsDate 2011 11 <$> seqZ 1 29) ++ [mkJsDate 2011 11 31].
Proof. by vm_compute. Qed.

(** From the 31st of January 2024 one month on is the first of February,
    and from a year 50 it is the first of February 1950. *)
Lemma changeMonth_moves_witness :
  currentMonthDate (changeMonth 1 calendar_example) = mkJsDate 2024 1 1
  /\ month_index (currentMonthDate (changeMonth 1 calendar_example))
     = month_index (currentMonthDate calendar_example) + 1
  /\ month_index (currentMonthDate
                    (changeMonth 1 (mkCalendar (mkJsDate 50 0 1) eventForm_initial)))
     = month_index (mkJsDate 50 0 1) + 1 + 12 * 1900.
Proof.
  destruct (changeMonth_moves 1 calendar_example) as (_ & _ & _ & H1 & _);
    [unfold Date_range; simpl; zdiv|].
  destruct (changeMonth_moves 1 (mkCalendar (mkJsDate 50 0 1) eventForm_initial))
    as (_ & _ & _ & _ & H2); [unfold Date_range; simpl; zdiv|].
  split; [reflexivity|]. split.
  - apply H1. simpl. lia.
  - apply H2. simpl. lia.
Defined.

Lemma changeMonth_back_witness :
  currentMonthDate (changeMonth (- 14) (changeMonth 14 calendar_example))
  = mkJsDate 2024 0 1.
Proof.
  apply (changeMonth_back 14 calendar_example); unfold Date_range; simpl; zdiv.
Defined.

(** The events and highlights of the state after five calls, by day;
    and an event whose date is [constructor]. *)
Lemma byDate_lookup_witness :
  (exists m, eventsByDate inherited_names (events app_five) = Some m
             /\ CalendarEvent.title <$> onDay m (js "2024-05-01") = [js "Meeting"])
  /\ (exists m, highlightsByDate inherited_names (highlights app_five) = Some m
                /\ Highlight.text <$> onDay m (js "2024-05-01") = [js "read"])
  /\ eventsByDate inherited_names
       [CalendarEvent.mk (js "e1") (js "x") (js "constructor") 0 (js "c") None None 0]
     = None.
Proof.
  destruct (byDate_lookup inherited_names (events app_five) (highlights app_five))
    as (He & Hh & _).
  destruct (byDate_lookup inherited_names
              [CalendarEvent.mk (js "e1") (js "x") (js "constructor") 0 (js "c")
                                None None 0] []) as (_ & _ & Hx & _).
  repeat apply conj.
  - destruct He as (m & Hm & Hl); [by vm_compute; repeat constructor|].
    exists m. split; [done|]. rewrite Hl. by vm_compute.
  - destruct Hh as (m & Hm & Hl); [by vm_compute; repeat constructor|].
    exists m. split; [done|]. rewrite Hl. by vm_compute.
  - apply Hx. by left.
Defined.

Lemma dashboard_highlights_newest_witness :
  length (dashboardHighlights app_five) = 1%nat.
Proof.
  apply (dashboard_highlights_newest app_five).
  vm_compute. repeat constructor.
Defined.

Lemma dashboard_todos_pending_witness :
  todos app_five
  = filter (fun t => Todo.completed t = false) (todos app_five)
    ++ filter (fun t => Todo.completed t = true) (todos app_five).
Proof.
  destruct (dashboard_todos_pending app_five) as (_ & _ & H).
  apply H. order_eval.
Defined.

(** On the first of May 2024 the event of the 30th of April is not
    shown. *)
Lemma dashboard_events_upcoming_witness :
  StronglySorted (event_before iso_getTime)
                 (dashboardEvents iso_getTime (js "2024-05-01") app_five)
  /\ Forall (fun e => e ∈ events app_five)
       (dashboardEvents iso_getTime (js "2024-05-01") app_five).
Proof.
  destruct (dashboard_events_upcoming iso_getTime (js "2024-05-01") app_five)
    as (Hin & _ & Hs).
  split.
  - apply Hs. order_eval.
  - rewrite Forall_forall. intros e He. by destruct (Hin e He).
Defined.

Lemma event_time_field_unused_witness :
  (formStep iso_getTime (SubmitEvent env_1)
     (formStep iso_getTime (TypeTime (js "10:00"))
        (mkEventForm (Some (js "2024-05-01")) (js "09:30") (js "Meeting")
                     (js "bg-blue-200") None (Some (js "r1")), initial))).2
  = (formStep iso_getTime (SubmitEvent env_1)
       (mkEventForm (Some (js "2024-05-01")) (js "09:30") (js "Meeting")
                    (js "bg-blue-200") None (Some (js "r1")), initial)).2
  /\ Forall (fun e => CalendarEvent.time e = 1000)
       (events (formStep iso_getTime (SubmitEvent env_1)
                  (mkEventForm (Some (js "2024-05-01")) (js "09:30") (js "Meeting")
                               (js "bg-blue-200") None (Some (js "r1")), initial)).2).
Proof.
  destruct (event_time_field_unused iso_getTime env_1
              (mkEventForm (Some (js "2024-05-01")) (js "09:30") (js "Meeting")
                           (js "bg-blue-200") None (Some (js "r1")))
              (js "10:00") initial) as [Heq H].
  split; [exact Heq|].
  rewrite Forall_forall. intros e He.
  destruct (H e He) as [Hold|Ht]; [|exact Ht].
  vm_compute in Hold. by apply not_elem_of_nil in Hold.
Defined.


(** One highlight saved to an empty store and loaded at the next start. *)
Lemma save_then_load_witness :
  loadEffect parse_highlights_1 parse_empty parse_empty parse_empty parse_empty
    (saveData stringify_highlights_1 stringify_empty stringify_empty
              stringify_empty stringify_empty accepts_all state_saved storage_empty)
    (mkNoteAppState initial true)
  = mkNoteAppState (mkApp [highlight_1] [] [] [] []) false.
Proof.
  apply (save_then_load parse_highlights_1 parse_empty parse_empty parse_empty
           parse_empty stringify_highlights_1 stringify_empty stringify_empty
           stringify_empty stringify_empty accepts_all state_saved
           (mkNoteAppState initial true) storage_empty).
  - reflexivity.
  - reflexivity.
  - split; [by vm_compute | by vm_compute].
  - split; [by vm_compute | by vm_compute].
  - split; [by vm_compute | by vm_compute].
  - split; [by vm_compute | by vm_compute].
  - split; [by vm_compute | by vm_compute].
Defined.

(** Of three files only the third parses: it alone reaches the callback;
    the first two leave the collections as they were. *)
Lemma import_log_witness :
  imported (importAll (parse_only doc_todos [todo_1]) import_todos files_example
                      (mkImport None app_small []))
    = [[todo_1]]
  /\ app (importAll (parse_only doc_todos [todo_1]) import_todos
                    (take 2 files_example) (mkImport None app_small []))
     = app_small.
Proof.
  destruct (import_log (parse_only doc_todos [todo_1]) import_todos files_example
              (mkImport None app_small []) false) as (Hlog & _).
  destruct (import_log (parse_only doc_todos [todo_1]) import_todos
              (take 2 files_example) (mkImport None app_small []) false)
    as (_ & Happ & _).
  split.
  - rewrite Hlog. by vm_compute.
  - apply Happ. by repeat constructor.
Defined.

Lemma textColor_defined_witness :
  textColor (js "bg-green-200") = Some (js "text-green-800")
  /\ textColor (js "bg-teal-200") = None
  /\ popupTextColor (js "bg-teal-200") = js "text-gray-800".
Proof.
  destruct (textColor_defined (js "bg-green-200")) as (_ & Hpos & _).
  destruct (textColor_defined (js "bg-teal-200")) as (_ & _ & Habs).
  split; [by apply (Hpos 2%nat)|].
  apply Habs. by_evaluation.
Defined.

(** February 2024 where local time is UTC: 29 cells with 29 different
    keys. *)
Lemma month_grid_keys_witness :
  length (formatDateYYYYMMDD <$> getDaysInMonth nextDay_UTC 2024 1) = 29%nat
  /\ NoDup (formatDateYYYYMMDD <$> getDaysInMonth nextDay_UTC 2024 1).
Proof.
  destruct (month_grid_keys nextDay_UTC 2024 1) as (Hlen & _ & Hnd);
    [lia|lia|apply nextDay_UTC_whole_month; lia|].
  split; [exact Hlen | exact Hnd].
Defined.
